(** * CloudSeedingViewer: the playback script, embedded and verified

    The repository holds two versions of one browser script:
    [src/script.js] (module [Script]) and an earlier version kept as
    [src/unnamed/part_000] (module [Part000]).  Both animate a flight
    track over a sequence of radar images: a position in the track is
    advanced by an interval timer or set by a slider, and every position
    change looks up the radar frame valid at the track point's time.

    The script is a set of closures over module-level variables and the
    page.  The embedding threads one [World] value (the variables, the
    parts of the page the script writes, the browser's interval table)
    through a small state-and-exception monad; a function of the script
    becomes a computation of that monad with the statements in the order
    of the source.

    What is taken from outside the repository:
    - the page has the elements the script looks up, and calls into the
      DOM and into Leaflet return normally; what they write is recorded
      in the fields of [Dom] and of the layers;
    - the fetched JSON has the shape the script reads (features with a
      geometry; points with coordinates and properties; radar metadata
      with its array and bounds), and its time strings parse to dates;
    - [Array.prototype.sort] is stable, as ECMAScript requires.
    [initializeMap] and [populateFlightSelector] create the map and fill
    the selector; they share no state with the playback and are left
    out. *)

From stdpp Require Import base option list sorting gmap strings pretty.
From Stdlib Require Import ZArith QArith Lia.

Local Open Scope Z_scope.

(** ** JavaScript and browser notions the script relies on *)

Module Js.

(** Exceptions the script can meet.  [NetworkError] and [SyntaxError]
    are the rejections of [fetch] and of [response.json()]. *)
Inductive Error : Set :=
| TypeError
| ReferenceError
| NetworkError
| SyntaxError.

(** Completion of a statement: normal, or abrupt with a thrown value. *)
Inductive Completion (A : Type) : Type :=
| Normal (a : A)
| Throw (e : Error).
Global Arguments Normal {A} a.
Global Arguments Throw {A} e.

(** A settled promise, as seen by [await]. *)
Inductive Settled (A : Type) : Type :=
| Resolved (a : A)
| Rejected (e : Error).
Global Arguments Resolved {A} a.
Global Arguments Rejected {A} e.

(** [a[i]] for an integer [i]: [undefined] ([None]) outside the array,
    in particular for every negative [i]. *)
Definition index {A : Type} (a : list A) (i : Z) : option A :=
  if bool_decide (0 ≤ i) then a !! Z.to_nat i else None.

(** [Array.prototype.sort(comparefn)].  ECMAScript (2019 and later)
    requires the sort to be stable; for a consistent comparator the
    result is then determined ([sort_frames_unique] below), so any
    stable sort computes it.  The model is insertion from the right: an element is placed before the
    first element of the sorted rest that does not compare below it,
    hence before the elements it ties with, which followed it. *)
Section Sort.
Context {A : Type} (comparefn : A → A → Z).

Fixpoint sort_insert (x : A) (l : list A) : list A :=
  match l with
  | [] => [x]
  | y :: l' =>
      if bool_decide (comparefn y x < 0)
      then y :: sort_insert x l'
      else x :: y :: l'
  end.

Fixpoint sort (l : list A) : list A :=
  match l with
  | [] => []
  | x :: l' => sort_insert x (sort l')
  end.
End Sort.

End Js.

Export Js.

(** ** Data read from the server *)

(** A [Date] is represented by its time value (milliseconds since the
    epoch), which is what [<=], [>=] and [-] on dates compare and
    subtract.  Dates that fail to parse are outside the model. *)
Abbreviation Date := Z (only parsing).

(** GeoJSON positions are [[longitude, latitude]]; Leaflet takes
    [[latitude, longitude]].  The numbers are only copied. *)
Definition Coordinates : Type := Q * Q.
Definition LatLng : Type := Q * Q.
Definition Bounds : Type := LatLng * LatLng.

(** A feature of [flight_data.geojson] whose geometry type is ['Point']. *)
Record Point : Type := {
  coordinates : Coordinates;
  timestamp_iso : Date;
  seeding_type : option string
}.

(** The features of [flight_data.geojson], by geometry type. *)
Inductive Feature : Type :=
| LineString (path : list Coordinates)
| PointFeature (p : Point)
| OtherFeature.

(** [flightData = { path: features.find(LineString), points: features.filter(Point) }] *)
Record FlightData : Type := {
  path : option (list Coordinates);
  points : list Point
}.

Fixpoint find_LineString (features : list Feature) : option (list Coordinates) :=
  match features with
  | [] => None
  | LineString p :: _ => Some p
  | _ :: rest => find_LineString rest
  end.

Fixpoint filter_Point (features : list Feature) : list Point :=
  match features with
  | [] => []
  | PointFeature p :: rest => p :: filter_Point rest
  | _ :: rest => filter_Point rest
  end.

(** ** Objects of the page and of the map *)

(** Leaflet layers held in module-level variables.  [onMap] records
    whether the layer is currently added to the map; [map.removeLayer]
    clears it and leaves the variable pointing to the layer. *)
Record PathLayer : Type := {
  pl_path : list Coordinates;
  pl_onMap : bool
}.

Record Marker : Type := {
  mk_latlng : LatLng;
  mk_fillColor : option string;
  mk_onMap : bool
}.

Record Overlay : Type := {
  ov_url : string;
  ov_bounds : Bounds;
  ov_onMap : bool
}.

(** The elements of the page the script writes. *)
Record Dom : Type := {
  btn_textContent : string;       (* #play-pause-btn text *)
  btn_playing : bool;             (* #play-pause-btn has class 'playing' *)
  controls_hidden : bool;         (* #animation-controls has class 'hidden' *)
  slider_max : Z;                 (* #timeline-slider *)
  slider_value : Z;
  slider_disabled : bool;
  timestamp_display : option Date (* instant whose text #timestamp-display shows *)
}.

(** The browser: the table of active intervals, the next handle
    [setInterval] will return, the alerts and console errors raised so
    far, and two facts about the page that the script depends on without
    establishing them: the value of the expression [start_point[0]],
    which [script.js] evaluates although the script declares no
    [start_point] ([None]: the identifier is unbound and the evaluation
    throws), and whether the image overlays of the loaded Leaflet have
    the method [getUrl] that [part_000] calls. *)
Record Browser : Type := {
  intervals : gset Z;
  next_handle : Z;
  alerts : list string;
  console_errors : list Error;
  start_point_0 : option Q;
  overlay_getUrl : bool
}.

(** ** Module-level state *)

Section State.
(** The parsed [radar_meta.json]; its shape differs between the two
    versions of the script. *)
Context {Meta : Type}.

(** [currentRadarFile] is a member in [script.js] only; [part_000]
    neither reads nor writes it. *)
Record AnimationState : Type := {
  isPlaying : bool;
  timer : option Z;
  currentIndex : Z;
  radarMeta : option Meta;
  currentFlightId : option string;
  currentRadarFile : option string
}.

Record World : Type := {
  flightData : option FlightData;
  radarOverlay : option Overlay;
  airplaneMarker : option Marker;
  flightPathLayer : option PathLayer;
  animationState : AnimationState;
  dom : Dom;
  browser : Browser
}.
End State.
Global Arguments AnimationState : clear implicits.
Global Arguments World : clear implicits.

(** ** The monad of the script: state and exceptions *)

Section Monad.
Context {Meta : Type}.

(** A computation runs on a world and completes normally or abruptly;
    in either case the writes made so far stay in the world. *)
Definition M (A : Type) : Type := World Meta → Completion A * World Meta.

Definition ret {A} (a : A) : M A := λ w, (Normal a, w).

Definition throw {A} (e : Error) : M A := λ w, (Throw e, w).

Definition bind {A B} (m : M A) (k : A → M B) : M B :=
  λ w, match m w with
       | (Normal a, w') => k a w'
       | (Throw e, w') => (Throw e, w')
       end.

(** [try { body } catch (error) { handler }] *)
Definition try_catch {A} (body : M A) (handler : Error → M A) : M A :=
  λ w, match body w with
       | (Normal a, w') => (Normal a, w')
       | (Throw e, w') => handler e w'
       end.

Definition gets {A} (f : World Meta → A) : M A := λ w, (Normal (f w), w).

Definition modify (f : World Meta → World Meta) : M unit := λ w, (Normal (), f w).

(** Member access on a value that may be [null] or [undefined]. *)
Definition deref {A} (o : option A) : M A :=
  match o with
  | Some a => ret a
  | None => throw TypeError
  end.

(** [await p] for a promise that settles as [p]. *)
Definition await {A} (p : Settled A) : M A :=
  match p with
  | Resolved a => ret a
  | Rejected e => throw e
  end.

(** Reads a variable and accesses a member of its value. *)
Definition nonnull {A} (f : World Meta → option A) : M A :=
  bind (gets f) deref.

(** The world a computation leaves behind, however it completes. *)
Definition exec {A} (m : M A) (w : World Meta) : World Meta := (m w).2.
End Monad.
Global Arguments M : clear implicits.


Declare Scope js_scope.
Delimit Scope js_scope with js.
Notation "x ← y ; z" := (bind y (λ x : _, z))
  (at level 20, y at level 100, z at level 200, only parsing) : js_scope.
Notation "x ;; z" := (bind x (λ _, z))
  (at level 100, z at level 200, only parsing, right associativity) : js_scope.
Local Open Scope js_scope.

(** ** Writes to the state *)

Section Setters.
Context {Meta : Type}.
Implicit Types (w : World Meta) (a : AnimationState Meta).

Definition with_animationState (f : AnimationState Meta → AnimationState Meta) w : World Meta :=
  {| flightData := flightData w; radarOverlay := radarOverlay w;
     airplaneMarker := airplaneMarker w; flightPathLayer := flightPathLayer w;
     animationState := f (animationState w); dom := dom w; browser := browser w |}.

Definition with_dom (f : Dom → Dom) w : World Meta :=
  {| flightData := flightData w; radarOverlay := radarOverlay w;
     airplaneMarker := airplaneMarker w; flightPathLayer := flightPathLayer w;
     animationState := animationState w; dom := f (dom w); browser := browser w |}.

Definition with_browser (f : Browser → Browser) w : World Meta :=
  {| flightData := flightData w; radarOverlay := radarOverlay w;
     airplaneMarker := airplaneMarker w; flightPathLayer := flightPathLayer w;
     animationState := animationState w; dom := dom w; browser := f (browser w) |}.

Definition set_flightData (v : option FlightData) w : World Meta :=
  {| flightData := v; radarOverlay := radarOverlay w;
     airplaneMarker := airplaneMarker w; flightPathLayer := flightPathLayer w;
     animationState := animationState w; dom := dom w; browser := browser w |}.

Definition set_radarOverlay (v : option Overlay) w : World Meta :=
  {| flightData := flightData w; radarOverlay := v;
     airplaneMarker := airplaneMarker w; flightPathLayer := flightPathLayer w;
     animationState := animationState w; dom := dom w; browser := browser w |}.

Definition set_airplaneMarker (v : option Marker) w : World Meta :=
  {| flightData := flightData w; radarOverlay := radarOverlay w;
     airplaneMarker := v; flightPathLayer := flightPathLayer w;
     animationState := animationState w; dom := dom w; browser := browser w |}.

Definition set_flightPathLayer (v : option PathLayer) w : World Meta :=
  {| flightData := flightData w; radarOverlay := radarOverlay w;
     airplaneMarker := airplaneMarker w; flightPathLayer := v;
     animationState := animationState w; dom := dom w; browser := browser w |}.

Definition set_isPlaying (v : bool) a : AnimationState Meta :=
  {| isPlaying := v; timer := timer a; currentIndex := currentIndex a;
     radarMeta := radarMeta a; currentFlightId := currentFlightId a;
     currentRadarFile := currentRadarFile a |}.

Definition set_timer (v : option Z) a : AnimationState Meta :=
  {| isPlaying := isPlaying a; timer := v; currentIndex := currentIndex a;
     radarMeta := radarMeta a; currentFlightId := currentFlightId a;
     currentRadarFile := currentRadarFile a |}.

Definition set_currentIndex (v : Z) a : AnimationState Meta :=
  {| isPlaying := isPlaying a; timer := timer a; currentIndex := v;
     radarMeta := radarMeta a; currentFlightId := currentFlightId a;
     currentRadarFile := currentRadarFile a |}.

Definition set_radarMeta (v : option Meta) a : AnimationState Meta :=
  {| isPlaying := isPlaying a; timer := timer a; currentIndex := currentIndex a;
     radarMeta := v; currentFlightId := currentFlightId a;
     currentRadarFile := currentRadarFile a |}.

Definition set_currentFlightId (v : option string) a : AnimationState Meta :=
  {| isPlaying := isPlaying a; timer := timer a; currentIndex := currentIndex a;
     radarMeta := radarMeta a; currentFlightId := v;
     currentRadarFile := currentRadarFile a |}.

Definition set_currentRadarFile (v : option string) a : AnimationState Meta :=
  {| isPlaying := isPlaying a; timer := timer a; currentIndex := currentIndex a;
     radarMeta := radarMeta a; currentFlightId := currentFlightId a;
     currentRadarFile := v |}.
End Setters.

Definition set_btn_textContent (v : string) (d : Dom) : Dom :=
  {| btn_textContent := v; btn_playing := btn_playing d;
     controls_hidden := controls_hidden d; slider_max := slider_max d;
     slider_value := slider_value d; slider_disabled := slider_disabled d;
     timestamp_display := timestamp_display d |}.

Definition set_btn_playing (v : bool) (d : Dom) : Dom :=
  {| btn_textContent := btn_textContent d; btn_playing := v;
     controls_hidden := controls_hidden d; slider_max := slider_max d;
     slider_value := slider_value d; slider_disabled := slider_disabled d;
     timestamp_display := timestamp_display d |}.

Definition set_controls_hidden (v : bool) (d : Dom) : Dom :=
  {| btn_textContent := btn_textContent d; btn_playing := btn_playing d;
     controls_hidden := v; slider_max := slider_max d;
     slider_value := slider_value d; slider_disabled := slider_disabled d;
     timestamp_display := timestamp_display d |}.

Definition set_slider_max (v : Z) (d : Dom) : Dom :=
  {| btn_textContent := btn_textContent d; btn_playing := btn_playing d;
     controls_hidden := controls_hidden d; slider_max := v;
     slider_value := slider_value d; slider_disabled := slider_disabled d;
     timestamp_display := timestamp_display d |}.

Definition set_slider_value (v : Z) (d : Dom) : Dom :=
  {| btn_textContent := btn_textContent d; btn_playing := btn_playing d;
     controls_hidden := controls_hidden d; slider_max := slider_max d;
     slider_value := v; slider_disabled := slider_disabled d;
     timestamp_display := timestamp_display d |}.

Definition set_slider_disabled (v : bool) (d : Dom) : Dom :=
  {| btn_textContent := btn_textContent d; btn_playing := btn_playing d;
     controls_hidden := controls_hidden d; slider_max := slider_max d;
     slider_value := slider_value d; slider_disabled := v;
     timestamp_display := timestamp_display d |}.

Definition set_timestamp_display (v : option Date) (d : Dom) : Dom :=
  {| btn_textContent := btn_textContent d; btn_playing := btn_playing d;
     controls_hidden := controls_hidden d; slider_max := slider_max d;
     slider_value := slider_value d; slider_disabled := slider_disabled d;
     timestamp_display := v |}.

Definition set_intervals (v : gset Z) (b : Browser) : Browser :=
  {| intervals := v; next_handle := next_handle b; alerts := alerts b;
     console_errors := console_errors b; start_point_0 := start_point_0 b;
     overlay_getUrl := overlay_getUrl b |}.

Definition set_next_handle (v : Z) (b : Browser) : Browser :=
  {| intervals := intervals b; next_handle := v; alerts := alerts b;
     console_errors := console_errors b; start_point_0 := start_point_0 b;
     overlay_getUrl := overlay_getUrl b |}.

Definition set_alerts (v : list string) (b : Browser) : Browser :=
  {| intervals := intervals b; next_handle := next_handle b; alerts := v;
     console_errors := console_errors b; start_point_0 := start_point_0 b;
     overlay_getUrl := overlay_getUrl b |}.

Definition set_console_errors (v : list Error) (b : Browser) : Browser :=
  {| intervals := intervals b; next_handle := next_handle b; alerts := alerts b;
     console_errors := v; start_point_0 := start_point_0 b;
     overlay_getUrl := overlay_getUrl b |}.

(** ** Browser and Leaflet calls *)

Section Calls.
Context {Meta : Type}.

(** [setInterval(callback, 50)]: registers the callback under a fresh
    handle and returns the handle.  Every interval of the script has
    the same callback, so the table keeps the handles only. *)
Definition setInterval : M Meta Z :=
  h ← gets (λ w, next_handle (browser w));
  modify (with_browser (λ b, set_next_handle (h + 1) (set_intervals ({[h]} ∪ intervals b) b)));;
  ret h.

(** [clearInterval(handle)]; a handle that is [null] or not in the
    table is ignored. *)
Definition clearInterval (handle : option Z) : M Meta unit :=
  match handle with
  | Some h => modify (with_browser (λ b, set_intervals (intervals b ∖ {[h]}) b))
  | None => ret ()
  end.

Definition alert (message : string) : M Meta unit :=
  modify (with_browser (λ b, set_alerts (alerts b ++ [message]) b)).

(** [console.error(..., error)] *)
Definition console_error (e : Error) : M Meta unit :=
  modify (with_browser (λ b, set_console_errors (console_errors b ++ [e]) b)).

(** [if (layer) map.removeLayer(layer)] for each kind of layer. *)
Definition removeLayer_path (l : option PathLayer) : option PathLayer :=
  (λ x, {| pl_path := pl_path x; pl_onMap := false |}) <$> l.

Definition removeLayer_marker (l : option Marker) : option Marker :=
  (λ x, {| mk_latlng := mk_latlng x; mk_fillColor := mk_fillColor x;
           mk_onMap := false |}) <$> l.

Definition removeLayer_overlay (l : option Overlay) : option Overlay :=
  (λ x, {| ov_url := ov_url x; ov_bounds := ov_bounds x; ov_onMap := false |}) <$> l.

Definition setUrl (url : string) (o : Overlay) : Overlay :=
  {| ov_url := url; ov_bounds := ov_bounds o; ov_onMap := ov_onMap o |}.

Definition setLatLng (p : LatLng) (m : Marker) : Marker :=
  {| mk_latlng := p; mk_fillColor := mk_fillColor m; mk_onMap := mk_onMap m |}.

Definition setStyle_fillColor (c : string) (m : Marker) : Marker :=
  {| mk_latlng := mk_latlng m; mk_fillColor := Some c; mk_onMap := mk_onMap m |}.
End Calls.

(** The state when the script has been evaluated (lines 3-16): the
    variables as declared, the page as served, no interval set yet. *)
Definition initial {Meta : Type} (page : Dom) (start_point_0 : option Q)
    (overlay_getUrl : bool) : World Meta :=
  {| flightData := None; radarOverlay := None; airplaneMarker := None;
     flightPathLayer := None;
     animationState :=
       {| isPlaying := false; timer := None; currentIndex := 0; radarMeta := None;
          currentFlightId := None; currentRadarFile := None |};
     dom := page;
     browser :=
       {| intervals := ∅; next_handle := 1; alerts := []; console_errors := [];
          start_point_0 := start_point_0; overlay_getUrl := overlay_getUrl |} |}.

(** ** Functions that are the same in both versions *)

(** The text a template literal gives for [animationState.currentFlightId]. *)
Definition flightId_text (id : option string) : string :=
  default "null" id.

(** [`processed_data/${currentFlightId}/radar_frames/${file}`] *)
Definition radar_frame_url (id : option string) (file : string) : string :=
  "processed_data/" +:+ flightId_text id +:+ "/radar_frames/" +:+ file.

(** The marker colour for [point.properties.seeding_type]. *)
Definition seeding_color (type : option string) : string :=
  if bool_decide (type = Some "BIP") then "#ff00ff"
  else if bool_decide (type = Some "Eject") then "#ffff00"
  else if bool_decide (type = Some "Generator") then "#00ffff"
  else "#ff7800".

Section Shared.
Context {Meta : Type}.
(** [updateFrame] is defined per version; the timer callback calls it. *)
Context (updateFrame : Z → M Meta unit).

Definition drawFlightPath : M Meta unit :=
  fd ← nonnull flightData;
  match path fd with
  | Some p => modify (set_flightPathLayer (Some {| pl_path := p; pl_onMap := true |}))
  | None => ret ()
  end.

(** The callback given to [setInterval] in [playAnimation]. *)
Definition tick : M Meta unit :=
  i ← gets (λ w, currentIndex (animationState w));
  let nextIndex := i + 1 in
  fd ← nonnull flightData;
  let nextIndex :=
    if bool_decide (nextIndex >= Z.of_nat (length (points fd))) then 0 else nextIndex in
  updateFrame nextIndex.

Definition playAnimation : M Meta unit :=
  playing ← gets (λ w, isPlaying (animationState w));
  if playing then ret () else
  modify (with_animationState (set_isPlaying true));;
  modify (with_dom (set_btn_textContent "Pause"));;
  modify (with_dom (set_btn_playing true));;
  h ← setInterval;
  modify (with_animationState (set_timer (Some h))).

Definition pauseAnimation : M Meta unit :=
  playing ← gets (λ w, isPlaying (animationState w));
  if negb playing then ret () else
  modify (with_animationState (set_isPlaying false));;
  modify (with_dom (set_btn_textContent "Play"));;
  modify (with_dom (set_btn_playing false));;
  h ← gets (λ w, timer (animationState w));
  clearInterval h.

(** The listener of the play/pause button. *)
Definition on_play_pause_click : M Meta unit :=
  playing ← gets (λ w, isPlaying (animationState w));
  if playing then pauseAnimation else playAnimation.

(** The listener of the slider; [value] is [parseInt(e.target.value, 10)]. *)
Definition on_slider_input (value : Z) : M Meta unit :=
  pauseAnimation;;
  updateFrame value.
End Shared.

(** ** [src/script.js] *)

Module Script.

(** A frame of [radar_meta.json]: [time] is [new Date(frame.time)]. *)
Record Frame : Type := {
  time : Date;
  file : string
}.

Record RadarMeta : Type := {
  frames : list Frame;
  bounds : Bounds
}.

Definition State : Type := World RadarMeta.

(** The loop of [updateFrame] (lines 132-138): [correctFrame] is
    overwritten by every frame up to the first one later than
    [pointTime], where the loop breaks. *)
Fixpoint scan_frames (pointTime : Date) (fs : list Frame) (correctFrame : option Frame)
  : option Frame :=
  match fs with
  | [] => correctFrame
  | frame :: rest =>
      if bool_decide (time frame ≤ pointTime)
      then scan_frames pointTime rest (Some frame)
      else correctFrame
  end.

(** Lines 131-138: [correctFrame] starts as [frames[0]], which is
    [undefined] for an empty array. *)
Definition resolve_frame (pointTime : Date) (fs : list Frame) : option Frame :=
  scan_frames pointTime fs (index fs 0).

Definition updateFrame (pointIndex : Z) : M RadarMeta unit :=
  modify (with_animationState (set_currentIndex pointIndex));;
  fd ← nonnull flightData;
  match index (points fd) pointIndex with
  | None => ret ()
  | Some point =>
      let pointTime := timestamp_iso point in
      meta ← nonnull (λ w, radarMeta (animationState w));
      correctFrame ← deref (resolve_frame pointTime (frames meta));
      shown ← gets (λ w, currentRadarFile (animationState w));
      (if bool_decide (shown ≠ Some (file correctFrame)) then
         id ← gets (λ w, currentFlightId (animationState w));
         let newImageUrl := radar_frame_url id (file correctFrame) in
         overlay ← nonnull radarOverlay;
         modify (set_radarOverlay (Some (setUrl newImageUrl overlay)));;
         modify (with_animationState (set_currentRadarFile (Some (file correctFrame))))
       else ret ());;
      let coords := coordinates point in
      marker ← nonnull airplaneMarker;
      modify (set_airplaneMarker (Some (setLatLng (coords.2, coords.1) marker)));;
      let color := seeding_color (seeding_type point) in
      marker ← nonnull airplaneMarker;
      modify (set_airplaneMarker (Some (setStyle_fillColor color marker)));;
      modify (with_dom (set_slider_value pointIndex));;
      modify (with_dom (set_timestamp_display (Some pointTime)))
  end.

Definition resetMap : M RadarMeta unit :=
  pauseAnimation;;
  modify (λ w, set_flightPathLayer (removeLayer_path (flightPathLayer w)) w);;
  modify (λ w, set_airplaneMarker (removeLayer_marker (airplaneMarker w)) w);;
  modify (λ w, set_radarOverlay (removeLayer_overlay (radarOverlay w)) w);;
  modify (set_flightData None);;
  modify (with_animationState (set_currentIndex 0));;
  modify (with_animationState (set_currentRadarFile None));;
  modify (with_dom (set_controls_hidden true));;
  modify (with_dom (set_slider_disabled true)).

Definition setupAnimation : M RadarMeta unit :=
  fd ← nonnull flightData;
  first ← deref (index (points fd) 0);
  let startPoint := coordinates first in
  (* line 86 reads [start_point[0]], not [startPoint[0]] *)
  lng ← gets (λ w, start_point_0 (browser w));
  lng ← match lng with Some x => ret x | None => throw ReferenceError end;
  modify (set_airplaneMarker
            (Some {| mk_latlng := (startPoint.2, lng); mk_fillColor := None;
                     mk_onMap := true |}));;
  meta ← nonnull (λ w, radarMeta (animationState w));
  firstFrame ← deref (index (frames meta) 0);
  let firstFrameFile := file firstFrame in
  id ← gets (λ w, currentFlightId (animationState w));
  let radarImageUrl := radar_frame_url id firstFrameFile in
  meta ← nonnull (λ w, radarMeta (animationState w));
  modify (set_radarOverlay
            (Some {| ov_url := radarImageUrl; ov_bounds := bounds meta;
                     ov_onMap := true |}));;
  modify (with_animationState (set_currentRadarFile (Some firstFrameFile)));;
  fd ← nonnull flightData;
  modify (with_dom (set_slider_max (Z.of_nat (length (points fd)) - 1)));;
  modify (with_dom (set_slider_value 0));;
  modify (with_dom (set_slider_disabled false));;
  updateFrame 0.

(** The comparator of line 63. *)
Definition by_time (a b : Frame) : Z := time a - time b.

Definition sort_frames (meta : RadarMeta) : RadarMeta :=
  {| frames := Js.sort by_time (frames meta); bounds := bounds meta |}.

Definition load_failed_message : string :=
  "Could not load data for this flight. Make sure flight_data.geojson and radar_meta.json exist and are correctly formatted.".

(** [loadFlight] is asynchronous.  It runs in three stretches, between
    which other listeners may run: up to the first [fetch]; from the
    parsed flight data to the second [fetch]; from the parsed radar
    metadata to the end.  [geojson] and [meta] are what the two
    fetch-and-parse pairs settle to. *)
Definition loadFlight_enter (flightId : string) : M RadarMeta unit :=
  resetMap;;
  modify (with_animationState (set_currentFlightId (Some flightId))).

Definition loadFlight_flight (geojson : Settled (list Feature)) : M RadarMeta unit :=
  features ← await geojson;
  modify (set_flightData
            (Some {| path := find_LineString features;
                     points := filter_Point features |})).

Definition loadFlight_radar (meta : Settled RadarMeta) : M RadarMeta unit :=
  meta ← await meta;
  modify (with_animationState (set_radarMeta (Some meta)));;
  modify (with_animationState (λ a, set_radarMeta (sort_frames <$> radarMeta a) a));;
  drawFlightPath;;
  setupAnimation;;
  modify (with_dom (set_controls_hidden false)).

Definition loadFlight_catch (error : Error) : M RadarMeta unit :=
  console_error error;;
  alert load_failed_message.

(** The whole of [loadFlight] when nothing else runs in between. *)
Definition loadFlight (flightId : string)
    (geojson : Settled (list Feature)) (meta : Settled RadarMeta) : M RadarMeta unit :=
  loadFlight_enter flightId;;
  try_catch (loadFlight_flight geojson;; loadFlight_radar meta) loadFlight_catch.

(** The listener of the flight selector: [e.target.value ? loadFlight(...) : resetMap()]. *)
Definition on_flight_select (value : string) : M RadarMeta unit :=
  if bool_decide (value ≠ "") then loadFlight_enter value else resetMap.

(** What the event loop can hand to the script: a listener call, the
    resumption of a [loadFlight] whose awaited promise has settled, or
    a firing of an interval (dropped when its handle has been cleared). *)
Inductive Event : Type :=
| FlightSelect (value : string)
| FlightSettled (geojson : Settled (list Feature))
| RadarSettled (meta : Settled RadarMeta)
| PlayPauseClick
| SliderInput (value : Z)
| IntervalFire (handle : Z).

Definition dispatch (e : Event) : M RadarMeta unit :=
  match e with
  | FlightSelect value => on_flight_select value
  | FlightSettled geojson => try_catch (loadFlight_flight geojson) loadFlight_catch
  | RadarSettled meta => try_catch (loadFlight_radar meta) loadFlight_catch
  | PlayPauseClick => on_play_pause_click
  | SliderInput value => on_slider_input updateFrame value
  | IntervalFire handle =>
      active ← gets (λ w, bool_decide (handle ∈ intervals (browser w)));
      if active then tick updateFrame else ret ()
  end.

(** Each event runs to completion; an exception that escapes a listener
    ends that listener and leaves its writes in place. *)
Definition run (events : list Event) (w : State) : State :=
  foldl (λ w e, exec (dispatch e) w) w events.

End Script.

(** ** [src/unnamed/part_000], the earlier version *)

Module Part000.

(** This version reads an array of times; frame [i] is the image
    [frame_i.png]. *)
Record RadarMeta : Type := {
  timestamps : list Date;
  bounds : Bounds
}.

Definition State : Type := World RadarMeta.

(** The loop of [updateFrame] (lines 126-132), with [n] standing for
    [i + 1]: it runs [i] from [length - 1] down to [0] and stops at the
    first time not later than [pointTime]; if there is none,
    [radarFrameIndex] keeps its initial [0]. *)
Fixpoint scan_timestamps (pointTime : Date) (ts : list Date) (n : nat) : Z :=
  match n with
  | O => 0
  | S i =>
      match ts !! i with
      | Some radarTime =>
          if bool_decide (pointTime >= radarTime) then Z.of_nat i
          else scan_timestamps pointTime ts i
      | None => scan_timestamps pointTime ts i
      end
  end.

Definition resolve_index (pointTime : Date) (ts : list Date) : Z :=
  scan_timestamps pointTime ts (length ts).

(** [`frame_${radarFrameIndex}.png`] *)
Definition frame_file (radarFrameIndex : Z) : string :=
  "frame_" +:+ pretty radarFrameIndex +:+ ".png".

Definition updateFrame (pointIndex : Z) : M RadarMeta unit :=
  modify (with_animationState (set_currentIndex pointIndex));;
  fd ← nonnull flightData;
  match index (points fd) pointIndex with
  | None => ret ()
  | Some point =>
      let pointTime := timestamp_iso point in
      meta ← nonnull (λ w, radarMeta (animationState w));
      let radarFrameIndex := resolve_index pointTime (timestamps meta) in
      id ← gets (λ w, currentFlightId (animationState w));
      let newImageUrl := radar_frame_url id (frame_file radarFrameIndex) in
      overlay ← nonnull radarOverlay;
      has_getUrl ← gets (λ w, overlay_getUrl (browser w));
      (if has_getUrl then ret () else throw TypeError);;
      (if bool_decide (ov_url overlay ≠ newImageUrl) then
         modify (set_radarOverlay (Some (setUrl newImageUrl overlay)))
       else ret ());;
      let coords := coordinates point in
      marker ← nonnull airplaneMarker;
      modify (set_airplaneMarker (Some (setLatLng (coords.2, coords.1) marker)));;
      let color := seeding_color (seeding_type point) in
      marker ← nonnull airplaneMarker;
      modify (set_airplaneMarker (Some (setStyle_fillColor color marker)));;
      modify (with_dom (set_slider_value pointIndex));;
      modify (with_dom (set_timestamp_display (Some pointTime)))
  end.

Definition resetMap : M RadarMeta unit :=
  pauseAnimation;;
  modify (λ w, set_flightPathLayer (removeLayer_path (flightPathLayer w)) w);;
  modify (λ w, set_airplaneMarker (removeLayer_marker (airplaneMarker w)) w);;
  modify (λ w, set_radarOverlay (removeLayer_overlay (radarOverlay w)) w);;
  modify (set_flightData None);;
  modify (with_animationState (set_currentIndex 0));;
  modify (with_dom (set_controls_hidden true));;
  modify (with_dom (set_slider_disabled true)).

Definition setupAnimation : M RadarMeta unit :=
  fd ← nonnull flightData;
  first ← deref (index (points fd) 0);
  let startPoint := coordinates first in
  modify (set_airplaneMarker
            (Some {| mk_latlng := (startPoint.2, startPoint.1); mk_fillColor := None;
                     mk_onMap := true |}));;
  id ← gets (λ w, currentFlightId (animationState w));
  let radarImageUrl := radar_frame_url id "frame_0.png" in
  meta ← nonnull (λ w, radarMeta (animationState w));
  modify (set_radarOverlay
            (Some {| ov_url := radarImageUrl; ov_bounds := bounds meta;
                     ov_onMap := true |}));;
  fd ← nonnull flightData;
  modify (with_dom (set_slider_max (Z.of_nat (length (points fd)) - 1)));;
  modify (with_dom (set_slider_value 0));;
  modify (with_dom (set_slider_disabled false));;
  updateFrame 0.

Definition load_failed_message : string :=
  "Could not load data for this flight. Make sure flight_data.geojson and radar_meta.json exist.".

Definition loadFlight_enter (flightId : string) : M RadarMeta unit :=
  resetMap;;
  modify (with_animationState (set_currentFlightId (Some flightId))).

Definition loadFlight_flight (geojson : Settled (list Feature)) : M RadarMeta unit :=
  features ← await geojson;
  modify (set_flightData
            (Some {| path := find_LineString features;
                     points := filter_Point features |})).

Definition loadFlight_radar (meta : Settled RadarMeta) : M RadarMeta unit :=
  meta ← await meta;
  modify (with_animationState (set_radarMeta (Some meta)));;
  drawFlightPath;;
  setupAnimation;;
  modify (with_dom (set_controls_hidden false)).

Definition loadFlight_catch (error : Error) : M RadarMeta unit :=
  console_error error;;
  alert load_failed_message.

Definition loadFlight (flightId : string)
    (geojson : Settled (list Feature)) (meta : Settled RadarMeta) : M RadarMeta unit :=
  loadFlight_enter flightId;;
  try_catch (loadFlight_flight geojson;; loadFlight_radar meta) loadFlight_catch.

Definition on_flight_select (value : string) : M RadarMeta unit :=
  if bool_decide (value ≠ "") then loadFlight_enter value else resetMap.

End Part000.

(** * Notions used in the statements *)

(** A frame sequence in ascending order of time (ties allowed). *)
Definition ascending (fs : list Script.Frame) : Prop :=
  StronglySorted (λ a b, Script.time a ≤ Script.time b) fs.

(** The interval table agrees with the playing flag: while playing,
    the only active interval is the one whose handle [timer] holds; while
    not playing, no interval is active. *)
Definition timers_consistent {Meta} (w : World Meta) : Prop :=
  if isPlaying (animationState w)
  then ∃ h, timer (animationState w) = Some h ∧ intervals (browser w) = {[h]}
  else intervals (browser w) = ∅.

(** What the consistency above depends on. *)
Definition timer_view {Meta} (w : World Meta) : bool * option Z * gset Z :=
  (isPlaying (animationState w), timer (animationState w), intervals (browser w)).

(** A computation that leaves an observation [V] of the world as it
    found it, however it completes. *)
Definition preserves {Meta A T} (V : World Meta → T) (m : M Meta A) : Prop :=
  ∀ w, V (exec m w) = V w.

Definition off_map_path (l : option PathLayer) : Prop :=
  match l with Some x => pl_onMap x = false | None => True end.

Definition off_map_marker (l : option Marker) : Prop :=
  match l with Some x => mk_onMap x = false | None => True end.

Definition off_map_overlay (l : option Overlay) : Prop :=
  match l with Some x => ov_onMap x = false | None => True end.

(** The state with no session loaded, as [resetMap] of [script.js] leaves
    it: not playing, no flight data, position 0, no current radar file,
    no layer of the script on the map, controls hidden, slider disabled. *)
Definition stopped (w : Script.State) : Prop :=
  isPlaying (animationState w) = false ∧
  flightData w = None ∧
  currentIndex (animationState w) = 0 ∧
  currentRadarFile (animationState w) = None ∧
  off_map_path (flightPathLayer w) ∧
  off_map_marker (airplaneMarker w) ∧
  off_map_overlay (radarOverlay w) ∧
  controls_hidden (dom w) = true ∧
  slider_disabled (dom w) = true.

(** A session of [script.js] in which [updateFrame] can run: flight
    data, radar metadata with at least one frame, marker and overlay. *)
Definition session_ready (w : Script.State) : Prop :=
  is_Some (flightData w) ∧
  (∃ meta, radarMeta (animationState w) = Some meta ∧ Script.frames meta ≠ []) ∧
  is_Some (radarOverlay w) ∧
  is_Some (airplaneMarker w).

(** The same for [part_000], where [updateFrame] also needs the overlay
    to answer [getUrl]. *)
Definition session_ready_000 (w : Part000.State) : Prop :=
  is_Some (flightData w) ∧
  is_Some (radarMeta (animationState w)) ∧
  is_Some (radarOverlay w) ∧
  is_Some (airplaneMarker w) ∧
  overlay_getUrl (browser w) = true.

(** The play/pause button shows the state of the playback: its class
    ['playing'] and its label follow the flag [isPlaying]. *)
Definition button_reflects {Meta} (w : World Meta) : Prop :=
  btn_playing (dom w) = isPlaying (animationState w) ∧
  btn_textContent (dom w) = if isPlaying (animationState w) then "Pause" else "Play".

(** What [button_reflects] depends on. *)
Definition button_view {Meta} (w : World Meta) : bool * bool * string :=
  (isPlaying (animationState w), btn_playing (dom w), btn_textContent (dom w)).

(** The world in which [setupAnimation] of [script.js] calls
    [updateFrame(0)], when it gets that far: marker at the latitude of
    the first point and the longitude [lng] read from [start_point],
    overlay on the first frame, slider enabled over the whole track. *)
Definition setup_world (w : Script.State) (fd : FlightData) (first : Point) (lng : Q)
    (meta : Script.RadarMeta) (firstFrame : Script.Frame) : Script.State :=
  with_dom (set_slider_disabled false)
    (with_dom (set_slider_value 0)
       (with_dom (set_slider_max (Z.of_nat (length (points fd)) - 1))
          (with_animationState (set_currentRadarFile (Some (Script.file firstFrame)))
             (set_radarOverlay
                (Some {| ov_url := radar_frame_url (currentFlightId (animationState w))
                                     (Script.file firstFrame);
                         ov_bounds := Script.bounds meta; ov_onMap := true |})
                (set_airplaneMarker
                   (Some {| mk_latlng := ((coordinates first).2, lng);
                            mk_fillColor := None; mk_onMap := true |})
                   w))))).

(** The image of the overlay is the one recorded as current: whenever
    [currentRadarFile] holds a file, the overlay exists and its URL is
    the URL of that file under the current flight. *)
Definition overlay_shows_current (w : Script.State) : Prop :=
  ∀ f, currentRadarFile (animationState w) = Some f →
       ov_url <$> radarOverlay w
       = Some (radar_frame_url (currentFlightId (animationState w)) f).

(** What [overlay_shows_current] depends on. *)
Definition overlay_view (w : Script.State) : option Overlay * option string * option string :=
  (radarOverlay w, currentRadarFile (animationState w), currentFlightId (animationState w)).

(** A computation that keeps a property of the world, however it
    completes. *)
Definition keeps {Meta A} (I : World Meta → Prop) (m : M Meta A) : Prop :=
  ∀ w, I w → I (exec m w).

(** ** Example data

    The specification's scenario A: track points at minutes 0, 10 and
    20, radar frames at minutes 0 and 15 (times in milliseconds). *)

Definition frame_f0 : Script.Frame := {| Script.time := 0; Script.file := "f0.png" |}.
Definition frame_f1 : Script.Frame := {| Script.time := 900000; Script.file := "f1.png" |}.

Definition scenario_frames : list Script.Frame := [frame_f0; frame_f1].

Definition scenario_timestamps : list Date := [0; 900000].

(** Three frames, the first two at the same time. *)
Definition tie_a : Script.Frame := {| Script.time := 0; Script.file := "a.png" |}.
Definition tie_b : Script.Frame := {| Script.time := 0; Script.file := "b.png" |}.
Definition tie_c : Script.Frame := {| Script.time := 5; Script.file := "c.png" |}.

Definition tie_frames : list Script.Frame := [tie_a; tie_b; tie_c].

(** The track of scenario A and a page as it may be served. *)
Definition scenario_points : list Point :=
  [ {| coordinates := (-1205 # 10, 385 # 10)%Q; timestamp_iso := 0;
       seeding_type := None |};
    {| coordinates := (-1204 # 10, 386 # 10)%Q; timestamp_iso := 600000;
       seeding_type := Some "BIP" |};
    {| coordinates := (-1203 # 10, 387 # 10)%Q; timestamp_iso := 1200000;
       seeding_type := Some "Eject" |} ].

Definition scenario_path : list Coordinates :=
  [(-1205 # 10, 385 # 10)%Q; (-1203 # 10, 387 # 10)%Q].

Definition scenario_features : list Feature :=
  LineString scenario_path :: (PointFeature <$> scenario_points).

Definition scenario_flightData : FlightData :=
  {| path := Some scenario_path; points := scenario_points |}.

Definition scenario_bounds : Bounds := ((37 # 1, -122 # 1), (40 # 1, -119 # 1))%Q.

Definition scenario_meta : Script.RadarMeta :=
  {| Script.frames := scenario_frames; Script.bounds := scenario_bounds |}.

Definition scenario_meta_000 : Part000.RadarMeta :=
  {| Part000.timestamps := scenario_timestamps; Part000.bounds := scenario_bounds |}.

Definition served_page : Dom :=
  {| btn_textContent := "Play"; btn_playing := false; controls_hidden := true;
     slider_max := 100; slider_value := 0; slider_disabled := true;
     timestamp_display := None |}.

(** [script.js] with scenario A loaded and playing at position 1, on a
    page that binds [start_point]. *)
Definition scenario_world : Script.State :=
  {| flightData := Some scenario_flightData;
     radarOverlay :=
       Some {| ov_url := "processed_data/flight1/radar_frames/f0.png";
               ov_bounds := scenario_bounds; ov_onMap := true |};
     airplaneMarker :=
       Some {| mk_latlng := (386 # 10, -1204 # 10)%Q; mk_fillColor := Some "#ff00ff";
               mk_onMap := true |};
     flightPathLayer := Some {| pl_path := scenario_path; pl_onMap := true |};
     animationState :=
       {| isPlaying := true; timer := Some 1; currentIndex := 1;
          radarMeta := Some scenario_meta; currentFlightId := Some "flight1";
          currentRadarFile := Some "f0.png" |};
     dom :=
       {| btn_textContent := "Pause"; btn_playing := true; controls_hidden := false;
          slider_max := 2; slider_value := 1; slider_disabled := false;
          timestamp_display := Some 600000 |};
     browser :=
       {| intervals := {[1]}; next_handle := 2; alerts := []; console_errors := [];
          start_point_0 := Some (-1205 # 10)%Q; overlay_getUrl := false |} |}.

(** [part_000] with scenario A loaded and playing at position 1, on a
    page whose overlays have [getUrl]. *)
Definition scenario_world_000 : Part000.State :=
  {| flightData := Some scenario_flightData;
     radarOverlay :=
       Some {| ov_url := "processed_data/flight1/radar_frames/frame_0.png";
               ov_bounds := scenario_bounds; ov_onMap := true |};
     airplaneMarker :=
       Some {| mk_latlng := (386 # 10, -1204 # 10)%Q; mk_fillColor := Some "#ff00ff";
               mk_onMap := true |};
     flightPathLayer := Some {| pl_path := scenario_path; pl_onMap := true |};
     animationState :=
       {| isPlaying := true; timer := Some 1; currentIndex := 1;
          radarMeta := Some scenario_meta_000; currentFlightId := Some "flight1";
          currentRadarFile := None |};
     dom :=
       {| btn_textContent := "Pause"; btn_playing := true; controls_hidden := false;
          slider_max := 2; slider_value := 1; slider_disabled := false;
          timestamp_display := Some 600000 |};
     browser :=
       {| intervals := {[1]}; next_handle := 2; alerts := []; console_errors := [];
          start_point_0 := None; overlay_getUrl := true |} |}.

(** * Properties *)

(** ** The frame lookup of [script.js] *)

Section ScriptResolver.
Import Script.

(** The loop returns the last frame of the longest prefix of frames not
    later than [t], or the initial candidate when that prefix is empty. *)
Lemma scan_frames_split t fs acc :
  (∃ pre f post, fs = pre ++ f :: post ∧ scan_frames t fs acc = Some f ∧
      Forall (λ g, time g ≤ t) pre ∧ time f ≤ t ∧
      match post with [] => True | g :: _ => t < time g end)
  ∨ (scan_frames t fs acc = acc ∧
      match fs with [] => True | g :: _ => t < time g end).
Proof.
  revert acc. induction fs as [|h rest IH]; intros acc; simpl.
  - right. done.
  - case_bool_decide as Hh.
    + left. destruct (IH (Some h)) as [(pre & f & post & -> & Hs & Hpre & Hf & Hpost)|[Hs Hrest]].
      * exists (h :: pre), f, post. split_and!; try done. by constructor.
      * exists [], h, rest. split_and!; try done.
    + right. split; [done|lia].
Qed.

Lemma ascending_cons_inv f fs :
  ascending (f :: fs) → ascending fs ∧ Forall (λ g, time f ≤ time g) fs.
Proof. intros H. by inversion H. Qed.

Lemma ascending_app_inv pre post :
  ascending (pre ++ post) →
  ascending pre ∧ ascending post ∧
  ∀ a b, a ∈ pre → b ∈ post → time a ≤ time b.
Proof.
  induction pre as [|x pre IH]; simpl; intros H.
  - split_and!; [constructor|done|]. intros a b Ha. by apply elem_of_nil in Ha.
  - apply ascending_cons_inv in H as [H Hx].
    destruct (IH H) as (Hpre & Hpost & Hcross).
    apply Forall_app in Hx as [Hx1 Hx2].
    split_and!; [by constructor|done|].
    intros a b [->|Ha]%elem_of_cons Hb.
    + rewrite Forall_forall in Hx2. by apply Hx2.
    + by apply Hcross.
Qed.

(** In an ascending sequence every frame after one later than [t] is
    later than [t]. *)
Lemma ascending_later t fs :
  ascending fs →
  match fs with [] => True | g :: _ => t < time g end →
  Forall (λ g, t < time g) fs.
Proof.
  destruct fs as [|g rest]; [constructor|].
  intros [_ Hg]%ascending_cons_inv Ht. constructor; [done|].
  eapply Forall_impl; [exact Hg|]. simpl. intros; lia.
Qed.

(** The lookup on an ascending, non-empty sequence: the array splits
    around the frame returned, with nothing later than it before and
    only frames later than [t] after; or every frame is later than [t]
    and the first one is returned. *)
Lemma resolve_frame_split t fs :
  ascending fs → fs ≠ [] →
  (∃ pre f post, fs = pre ++ f :: post ∧ resolve_frame t fs = Some f ∧
      time f ≤ t ∧ Forall (λ g, time g ≤ time f) pre ∧ Forall (λ g, t < time g) post)
  ∨ (∃ f rest, fs = f :: rest ∧ resolve_frame t fs = Some f ∧
      Forall (λ g, t < time g) fs).
Proof.
  intros Hasc Hne. unfold resolve_frame.
  destruct (scan_frames_split t fs (index fs 0))
    as [(pre & f & post & -> & Hs & Hpre & Hf & Hpost)|[Hs Hfs]].
  - left. exists pre, f, post.
    apply ascending_app_inv in Hasc as (_ & Hpost' & Hcross).
    split_and!; try done.
    + apply Forall_forall. intros g Hg. apply Hcross; [done|]. by left.
    + apply ascending_cons_inv in Hpost' as [Hpost' _].
      by apply ascending_later.
  - right. destruct fs as [|f rest]; [done|].
    exists f, rest. split_and!; try done.
    by apply ascending_later.
Qed.
End ScriptResolver.

(** A strongly sorted list is ordered along its indices. *)
Lemma StronglySorted_lookup_le {A} (R : relation A) `{!Reflexive R} (l : list A) i j a b :
  StronglySorted R l → l !! i = Some a → l !! j = Some b → (i ≤ j)%nat → R a b.
Proof.
  intros Hs. revert i j. induction Hs as [|x l Hs IH Hx]; intros i j Hi Hj Hij.
  - by rewrite lookup_nil in Hi.
  - destruct i as [|i], j as [|j]; simpl in *; simplify_eq.
    + reflexivity.
    + rewrite Forall_forall in Hx. apply Hx. by eapply list_elem_of_lookup_2.
    + lia.
    + eapply IH; eauto with lia.
Qed.

Section ScriptResolverIndex.
Import Script.

Global Instance time_le_refl : Reflexive (λ a b : Frame, time a ≤ time b).
Proof. intros a. simpl. lia. Qed.

(** [resolve_frame_split] read along the indices: the frame returned
    sits at an index [i]; either it is not later than [t] and every
    frame not later than [t] sits at or before [i] and is not later
    than it, or [i] is [0] and all frames are later than [t]. *)
Lemma resolve_frame_index t fs :
  ascending fs → fs ≠ [] →
  ∃ (i : nat) f, fs !! i = Some f ∧ resolve_frame t fs = Some f ∧
    ((time f ≤ t ∧
      ∀ (j : nat) g, fs !! j = Some g → time g ≤ t → (j ≤ i)%nat ∧ time g ≤ time f)
     ∨ (i = 0%nat ∧ ∀ g, g ∈ fs → t < time g)).
Proof.
  intros Hasc Hne.
  destruct (resolve_frame_split t fs Hasc Hne)
    as [(pre & f & post & -> & Hr & Hf & Hpre & Hpost)|(f & rest & -> & Hr & Hall)].
  - exists (length pre), f. split_and!; [by apply list_lookup_middle|done|].
    left. split; [done|]. intros j g Hj Hg.
    destruct (decide (j < length pre)%nat) as [Hlt|Hge].
    + split; [lia|]. rewrite lookup_app_l in Hj by done.
      rewrite Forall_forall in Hpre. apply Hpre. by eapply list_elem_of_lookup_2.
    + destruct (decide (j = length pre)) as [->|Hne'].
      * rewrite list_lookup_middle in Hj by done. simplify_eq. split; lia.
      * rewrite lookup_app_r in Hj by lia.
        destruct (j - length pre)%nat as [|k] eqn:Hk; [lia|]. simpl in Hj.
        rewrite Forall_forall in Hpost.
        assert (t < time g) by (apply Hpost; by eapply list_elem_of_lookup_2). lia.
  - exists 0%nat, f. split_and!; [done|done|]. right. split; [done|].
    by apply Forall_forall.
Qed.
End ScriptResolverIndex.

(** ** The frame lookup of [part_000] *)

Section Part000Resolver.
Import Part000.

(** The downward loop stops at the greatest index below [n] whose time
    is not later than [t]; when there is none it yields [0]. *)
Lemma scan_timestamps_spec t ts n :
  (n ≤ length ts)%nat →
  (∃ (i : nat) x, scan_timestamps t ts n = Z.of_nat i ∧ (i < n)%nat ∧
      ts !! i = Some x ∧ x ≤ t ∧
      ∀ (j : nat) y, (j < n)%nat → ts !! j = Some y → y ≤ t → (j ≤ i)%nat)
  ∨ (scan_timestamps t ts n = 0 ∧
      ∀ (j : nat) y, (j < n)%nat → ts !! j = Some y → t < y).
Proof.
  induction n as [|n IH]; intros Hn; simpl.
  - right. split; [done|]. intros; lia.
  - destruct (ts !! n) as [x|] eqn:Hx; last first.
    { apply lookup_ge_None in Hx. lia. }
    case_bool_decide as Hc.
    + left. exists n, x. split_and!; try done; try lia.
    + destruct IH as [(i & x' & Hs & Hi & Hx' & Hle & Hmax)|[Hs Hall]]; [lia| |].
      * left. exists i, x'. split_and!; try done; try lia.
        intros j y Hj Hy Hyt. destruct (decide (j = n)) as [->|]; [|apply (Hmax j y); auto with lia].
        simplify_eq. lia.
      * right. split; [done|]. intros j y Hj Hy.
        destruct (decide (j = n)) as [->|]; [|apply (Hall j y); auto with lia].
        simplify_eq. lia.
Qed.

Lemma resolve_index_spec t ts :
  StronglySorted Z.le ts → ts ≠ [] →
  ∃ (i : nat) x, ts !! i = Some x ∧ resolve_index t ts = Z.of_nat i ∧
    ((x ≤ t ∧ ∀ (j : nat) y, ts !! j = Some y → y ≤ t → (j ≤ i)%nat ∧ y ≤ x)
     ∨ (i = 0%nat ∧ ∀ y, y ∈ ts → t < y)).
Proof.
  intros Hs Hne. unfold resolve_index.
  destruct (scan_timestamps_spec t ts (length ts))
    as [(i & x & Hr & Hi & Hx & Hle & Hmax)|[Hr Hall]]; [done| |].
  - exists i, x. split_and!; [done|done|]. left. split; [done|].
    intros j y Hj Hy. assert (j ≤ i)%nat as Hji.
    { apply (Hmax j y); [by eapply lookup_lt_Some|done|done]. }
    split; [done|]. by eapply (StronglySorted_lookup_le Z.le ts j i).
  - destruct ts as [|x ts']; [done|].
    exists 0%nat, x. split_and!; [done|done|]. right. split; [done|].
    intros y [j Hj]%list_elem_of_lookup_1. apply (Hall j y); [by eapply lookup_lt_Some|done].
Qed.
End Part000Resolver.

(** ** Claims about the frame lookup *)

(** C1.  For a non-empty radar sequence in ascending order of time and a
    query time [t], the lookup of [updateFrame] returns the frame with
    the greatest time not later than [t] (the one at the greatest index
    among them); if [t] is earlier than every frame, it returns the frame
    at index 0.  Stated for the frame array of [script.js] and for the
    timestamp array of [part_000]. *)
Theorem C1_frame_resolution (fs : list Script.Frame) (ts : list Date) (t : Date) :
  fs ≠ [] → ascending fs → ts ≠ [] → StronglySorted Z.le ts →
  (∃ (i : nat) f, fs !! i = Some f ∧ Script.resolve_frame t fs = Some f ∧
     ((Script.time f ≤ t ∧
       ∀ (j : nat) g, fs !! j = Some g → Script.time g ≤ t →
                      (j ≤ i)%nat ∧ Script.time g ≤ Script.time f)
      ∨ (i = 0%nat ∧ ∀ g, g ∈ fs → t < Script.time g)))
  ∧
  (∃ (i : nat) x, ts !! i = Some x ∧ Part000.resolve_index t ts = Z.of_nat i ∧
     ((x ≤ t ∧ ∀ (j : nat) y, ts !! j = Some y → y ≤ t → (j ≤ i)%nat ∧ y ≤ x)
      ∨ (i = 0%nat ∧ ∀ y, y ∈ ts → t < y))).
Proof.
  intros Hfs Hasc Hts Hsorted. split.
  - by apply resolve_frame_index.
  - by apply resolve_index_spec.
Qed.

Lemma C1_frame_resolution_witness :
  scenario_frames ≠ [] ∧ ascending scenario_frames ∧
  scenario_timestamps ≠ [] ∧ StronglySorted Z.le scenario_timestamps ∧
  (∃ (i : nat) f, scenario_frames !! i = Some f ∧
     Script.resolve_frame 600000 scenario_frames = Some f ∧
     ((Script.time f ≤ 600000 ∧
       ∀ (j : nat) g, scenario_frames !! j = Some g → Script.time g ≤ 600000 →
                      (j ≤ i)%nat ∧ Script.time g ≤ Script.time f)
      ∨ (i = 0%nat ∧ ∀ g, g ∈ scenario_frames → 600000 < Script.time g)))
  ∧
  (∃ (i : nat) x, scenario_timestamps !! i = Some x ∧
     Part000.resolve_index 600000 scenario_timestamps = Z.of_nat i ∧
     ((x ≤ 600000 ∧
       ∀ (j : nat) y, scenario_timestamps !! j = Some y → y ≤ 600000 → (j ≤ i)%nat ∧ y ≤ x)
      ∨ (i = 0%nat ∧ ∀ y, y ∈ scenario_timestamps → 600000 < y))).
Proof.
  assert (scenario_frames ≠ []) as H1 by (vm_compute; discriminate).
  assert (ascending scenario_frames) as H2
    by (unfold ascending; apply (bool_decide_unpack _); vm_compute; reflexivity).
  assert (scenario_timestamps ≠ []) as H3 by (vm_compute; discriminate).
  assert (StronglySorted Z.le scenario_timestamps) as H4
    by (apply (bool_decide_unpack _); vm_compute; reflexivity).
  split_and!; [exact H1|exact H2|exact H3|exact H4|
    apply (C1_frame_resolution scenario_frames scenario_timestamps 600000 H1 H2 H3 H4)..].
Defined.

(** C2.  The lookup is monotone in the query time: on a non-empty
    ascending sequence, for [t1 ≤ t2] the frame returned for [t1] is not
    later than the frame returned for [t2]. *)
Theorem C2_resolver_monotone (fs : list Script.Frame) (t1 t2 : Date) :
  fs ≠ [] → ascending fs → t1 ≤ t2 →
  ∃ f1 f2, Script.resolve_frame t1 fs = Some f1 ∧
           Script.resolve_frame t2 fs = Some f2 ∧
           Script.time f1 ≤ Script.time f2.
Proof.
  intros Hne Hasc Ht.
  destruct (resolve_frame_index t1 fs Hasc Hne) as (i1 & f1 & Hi1 & Hr1 & H1).
  destruct (resolve_frame_index t2 fs Hasc Hne) as (i2 & f2 & Hi2 & Hr2 & H2).
  exists f1, f2. split_and!; [done|done|].
  destruct H1 as [[Hf1 _]|[-> Hall1]], H2 as [[Hf2 Hmax2]|[-> Hall2]].
  - apply (Hmax2 i1 f1); [done|lia].
  - assert (t2 < Script.time f1) by (apply Hall2; by eapply list_elem_of_lookup_2). lia.
  - apply (StronglySorted_lookup_le (λ a b, Script.time a ≤ Script.time b) fs 0 i2 f1 f2);
      [exact Hasc|done|done|lia].
  - simplify_eq. lia.
Qed.

Lemma C2_resolver_monotone_witness :
  scenario_frames ≠ [] ∧ ascending scenario_frames ∧ 600000 ≤ 1200000 ∧
  ∃ f1 f2, Script.resolve_frame 600000 scenario_frames = Some f1 ∧
           Script.resolve_frame 1200000 scenario_frames = Some f2 ∧
           Script.time f1 ≤ Script.time f2.
Proof.
  assert (scenario_frames ≠ []) as H1 by (vm_compute; discriminate).
  assert (ascending scenario_frames) as H2
    by (unfold ascending; apply (bool_decide_unpack _); vm_compute; reflexivity).
  assert (600000 ≤ 1200000) as H3 by lia.
  split_and!; [exact H1|exact H2|exact H3|].
  apply (C2_resolver_monotone scenario_frames 600000 1200000 H1 H2 H3).
Defined.

(** C3, as stated, fails: with two frames at time 0 followed by a frame
    at time 5, the query time 10 is not earlier than 0, yet the lookup
    returns the frame at time 5 and not the last of the frames at time 0. *)
Lemma C3_tie_break_counterexample :
  ascending tie_frames ∧
  tie_frames !! 0%nat = Some tie_a ∧ tie_frames !! 1%nat = Some tie_b ∧
  Script.time tie_a = 0 ∧ Script.time tie_b = 0 ∧
  (∀ (j : nat) g, tie_frames !! j = Some g → Script.time g = 0 → (j ≤ 1)%nat) ∧
  0 ≤ 10 ∧
  Script.resolve_frame 10 tie_frames = Some tie_c ∧
  Script.resolve_frame 10 tie_frames ≠ Some tie_b ∧
  Part000.resolve_index 10 (Script.time <$> tie_frames) = 2.
Proof.
  split_and!; try (vm_compute; (reflexivity || discriminate)).
  - unfold ascending. apply (bool_decide_unpack _). vm_compute. reflexivity.
  - intros [|[|[|j]]] g Hj Hg; simpl in Hj; simplify_eq; lia.
Qed.

(** C3, amended.  On an ascending sequence, let [i] be the greatest index
    of a frame with time [ts] (the last of the frames that share [ts]).
    For every query time [t ≥ ts] such that no frame has a time in
    (ts, t], the lookup returns the frame at index [i].  Stated for
    [script.js] and, on indices, for [part_000]. *)
Theorem C3_tie_break (fs : list Script.Frame) (l : list Date)
    (ts t : Date) (i k : nat) (f : Script.Frame) :
  ascending fs →
  fs !! i = Some f → Script.time f = ts →
  (∀ (j : nat) g, fs !! j = Some g → Script.time g = ts → (j ≤ i)%nat) →
  (∀ g, g ∈ fs → Script.time g ≤ t → Script.time g ≤ ts) →
  StronglySorted Z.le l →
  l !! k = Some ts →
  (∀ j : nat, l !! j = Some ts → (j ≤ k)%nat) →
  (∀ y, y ∈ l → y ≤ t → y ≤ ts) →
  ts ≤ t →
  Script.resolve_frame t fs = Some f ∧ Part000.resolve_index t l = Z.of_nat k.
Proof.
  intros Hasc Hi Hf Hlast Hgap Hsorted Hk Hlastk Hgapk Ht. split.
  - assert (fs ≠ []) as Hne by (intros ->; by rewrite lookup_nil in Hi).
    destruct (resolve_frame_index t fs Hasc Hne) as (i' & f' & Hi' & Hr & [[Hf' Hmax]|[-> Hall]]).
    + rewrite Hr. f_equal.
      destruct (Hmax i f Hi ltac:(lia)) as [Hii' Hff'].
      assert (Script.time f' ≤ ts) as Hle.
      { apply Hgap; [by eapply list_elem_of_lookup_2|done]. }
      assert (i' ≤ i)%nat by (apply (Hlast i' f'); [done|lia]).
      assert (i' = i) as -> by lia. congruence.
    + assert (t < Script.time f) by (apply Hall; by eapply list_elem_of_lookup_2). lia.
  - assert (l ≠ []) as Hne by (intros ->; by rewrite lookup_nil in Hk).
    destruct (resolve_index_spec t l Hsorted Hne) as (k' & x & Hk' & Hr & [[Hx Hmax]|[-> Hall]]).
    + rewrite Hr. f_equal.
      destruct (Hmax k ts Hk Ht) as [Hkk' Hxx].
      assert (x ≤ ts) as Hle.
      { apply Hgapk; [by eapply list_elem_of_lookup_2|done]. }
      assert (x = ts) as -> by lia.
      assert (k' ≤ k)%nat by (by apply Hlastk). lia.
    + assert (t < ts) by (apply Hall; by eapply list_elem_of_lookup_2). lia.
Qed.

Lemma C3_tie_break_witness :
  Script.resolve_frame 3 tie_frames = Some tie_b ∧
  Part000.resolve_index 3 (Script.time <$> tie_frames) = Z.of_nat 1.
Proof.
  apply (C3_tie_break tie_frames (Script.time <$> tie_frames) 0 3 1 1 tie_b).
  - unfold ascending. apply (bool_decide_unpack _). vm_compute. reflexivity.
  - reflexivity.
  - reflexivity.
  - intros [|[|[|j]]] g Hj Hg; simpl in Hj; simplify_eq; lia.
  - intros g Hg Hle. apply list_elem_of_lookup_1 in Hg as [[|[|[|j]]] Hj];
      simpl in Hj; simplify_eq; vm_compute in Hle |- *; congruence.
  - apply (bool_decide_unpack _). vm_compute. reflexivity.
  - reflexivity.
  - intros [|[|[|j]]] Hj; simpl in Hj; simplify_eq; lia.
  - intros y Hy Hle. apply list_elem_of_lookup_1 in Hy as [[|[|[|j]]] Hj];
      simpl in Hj; simplify_eq; vm_compute in Hle |- *; congruence.
  - lia.
Defined.

(** ** The example worlds are states the scripts reach *)

(** [script.js]: select the flight, let both fetches resolve, press
    play, let the interval fire once. *)
Example scenario_world_reached :
  Script.run
    [Script.FlightSelect "flight1";
     Script.FlightSettled (Resolved scenario_features);
     Script.RadarSettled (Resolved scenario_meta);
     Script.PlayPauseClick;
     Script.IntervalFire 1]
    (initial served_page (Some (-1205 # 10)%Q) false)
  = scenario_world.
Proof. vm_compute. reflexivity. Qed.

(** [part_000]: the same steps. *)
Example scenario_world_000_reached :
  exec (playAnimation;; tick Part000.updateFrame)
    (exec (Part000.loadFlight "flight1" (Resolved scenario_features)
             (Resolved scenario_meta_000))
       (initial served_page None true))
  = scenario_world_000.
Proof. vm_compute. reflexivity. Qed.

(** Scenario A of the specification: the point at minute 10 shows frame
    [f0], the point at minute 20 shows frame [f1]. *)
Example scenario_A :
  currentRadarFile (animationState (exec (Script.updateFrame 1) scenario_world))
    = Some "f0.png" ∧
  currentRadarFile (animationState (exec (Script.updateFrame 2) scenario_world))
    = Some "f1.png" ∧
  ov_url <$> radarOverlay (exec (Part000.updateFrame 2) scenario_world_000)
    = Some "processed_data/flight1/radar_frames/frame_1.png".
Proof. vm_compute. done. Qed.

(** On a page that does not bind [start_point], [script.js] cannot
    finish a load: the same steps end in the alert, with the controls
    still hidden. *)
Example scenario_unbound_start_point :
  let w := Script.run
             [Script.FlightSelect "flight1";
              Script.FlightSettled (Resolved scenario_features);
              Script.RadarSettled (Resolved scenario_meta)]
             (initial served_page None false) in
  alerts (browser w) = [Script.load_failed_message] ∧
  console_errors (browser w) = [ReferenceError] ∧
  controls_hidden (dom w) = true ∧ airplaneMarker w = None.
Proof. vm_compute. done. Qed.

(** ** Running the functions of the script *)

Lemma index_None {A} (l : list A) (i : Z) :
  index l i = None ↔ i < 0 ∨ Z.of_nat (length l) ≤ i.
Proof.
  unfold index. case_bool_decide as Hi.
  - rewrite lookup_ge_None. lia.
  - split; [lia|done].
Qed.

Lemma index_is_Some {A} (l : list A) (i : Z) :
  is_Some (index l i) ↔ 0 ≤ i < Z.of_nat (length l).
Proof.
  rewrite <- not_eq_None_Some, index_None. lia.
Qed.

Lemma index_0 {A} (l : list A) : index l 0 = head l.
Proof. unfold index. simpl. by destruct l. Qed.

(** The pure parts stay folded while a computation is run. *)
Global Arguments Js.index : simpl never.
Global Arguments Script.resolve_frame : simpl never.
Global Arguments Part000.resolve_index : simpl never.
Global Arguments Part000.frame_file : simpl never.
Global Arguments radar_frame_url : simpl never.
Global Arguments seeding_color : simpl never.
Global Arguments Js.sort : simpl never.

(** Unfolds the monad and splits on every test on the way. *)
Ltac unfold_M :=
  repeat progress
    (unfold exec, nonnull, bind, try_catch, gets, modify, ret, throw, deref,
       await in *; simpl in * ).

(** Runs a computation along the tests whose outcome is a hypothesis. *)
Ltac follow_M :=
  unfold_M;
  repeat progress
    (simpl;
     repeat match goal with
            | H : ?x = _ |- context [match ?x with _ => _ end] => rewrite H
            | H : ?x = _ |- context [if ?x then _ else _] => rewrite H
            end).

Ltac negb_hyps :=
  repeat match goal with
         | H : negb _ = true |- _ => apply negb_true_iff in H
         | H : negb _ = false |- _ => apply negb_false_iff in H
         end.

Ltac run_M :=
  unfold_M; simpl in *; repeat (case_match; simplify_eq/=); negb_hyps;
  simplify_eq/=; try done.

Section SharedFacts.
Context {Meta : Type}.
Implicit Types (w : World Meta).

Lemma pauseAnimation_not_playing w :
  isPlaying (animationState w) = false → pauseAnimation w = (Normal (), w).
Proof. intros H. unfold pauseAnimation. unfold_M. by rewrite H. Qed.

Lemma playAnimation_playing w :
  isPlaying (animationState w) = true → playAnimation w = (Normal (), w).
Proof. intros H. unfold playAnimation. unfold_M. by rewrite H. Qed.

Lemma pauseAnimation_completes w : (pauseAnimation w).1 = Normal ().
Proof. unfold pauseAnimation, clearInterval. run_M. Qed.

Lemma pauseAnimation_isPlaying w :
  isPlaying (animationState (exec pauseAnimation w)) = false.
Proof. unfold pauseAnimation, clearInterval. run_M. Qed.

(** Apart from the flag, the button and the interval table, pausing
    leaves the world as it is. *)
Lemma pauseAnimation_frame w :
  let w' := exec pauseAnimation w in
  flightData w' = flightData w ∧ radarOverlay w' = radarOverlay w ∧
  airplaneMarker w' = airplaneMarker w ∧ flightPathLayer w' = flightPathLayer w ∧
  timer (animationState w') = timer (animationState w) ∧
  currentIndex (animationState w') = currentIndex (animationState w) ∧
  radarMeta (animationState w') = radarMeta (animationState w) ∧
  currentFlightId (animationState w') = currentFlightId (animationState w) ∧
  currentRadarFile (animationState w') = currentRadarFile (animationState w) ∧
  controls_hidden (dom w') = controls_hidden (dom w) ∧
  slider_max (dom w') = slider_max (dom w) ∧
  slider_value (dom w') = slider_value (dom w) ∧
  slider_disabled (dom w') = slider_disabled (dom w) ∧
  timestamp_display (dom w') = timestamp_display (dom w) ∧
  alerts (browser w') = alerts (browser w) ∧
  console_errors (browser w') = console_errors (browser w) ∧
  start_point_0 (browser w') = start_point_0 (browser w) ∧
  overlay_getUrl (browser w') = overlay_getUrl (browser w).
Proof. unfold pauseAnimation, clearInterval. run_M. Qed.

(** Pausing empties the interval table of a consistent world. *)
Lemma pauseAnimation_intervals w :
  timers_consistent w → intervals (browser (exec pauseAnimation w)) = ∅.
Proof.
  unfold timers_consistent, pauseAnimation, clearInterval, exec, bind, gets, modify, ret.
  destruct (isPlaying (animationState w)); simpl; [|done].
  intros (h & -> & Hi). simpl. rewrite Hi. apply difference_diag_L.
Qed.

Lemma pauseAnimation_consistent w :
  timers_consistent w → timers_consistent (exec pauseAnimation w).
Proof.
  intros H. unfold timers_consistent.
  rewrite pauseAnimation_isPlaying. by apply pauseAnimation_intervals.
Qed.

Lemma pauseAnimation_twice w :
  pauseAnimation (exec pauseAnimation w) = (Normal (), exec pauseAnimation w).
Proof. apply pauseAnimation_not_playing, pauseAnimation_isPlaying. Qed.

Lemma playAnimation_consistent w :
  timers_consistent w → timers_consistent (exec playAnimation w).
Proof.
  unfold timers_consistent, playAnimation, setInterval, exec, bind, gets, modify, ret.
  destruct (isPlaying (animationState w)) eqn:E; simpl; rewrite ?E; [done|].
  intros Hi. eexists. split; [reflexivity|]. rewrite Hi. apply union_empty_r_L.
Qed.
End SharedFacts.

(** *** [script.js] *)

Section ScriptFacts.
Import Script.
Implicit Types (w : State).

(** Lines 126-128: the position is written first; without a point at
    that index nothing else happens. *)
Lemma script_updateFrame_out_of_range w fd i :
  flightData w = Some fd → index (points fd) i = None →
  updateFrame i w = (Normal (), with_animationState (set_currentIndex i) w).
Proof. intros Hfd Hi. unfold updateFrame. by follow_M. Qed.

(** However [updateFrame] completes, the position is its argument. *)
Lemma script_updateFrame_currentIndex w i :
  currentIndex (animationState (exec (updateFrame i) w)) = i.
Proof. unfold updateFrame. run_M. Qed.

(** What [updateFrame] never writes. *)
Lemma script_updateFrame_frame w i :
  let w' := exec (updateFrame i) w in
  flightData w' = flightData w ∧ flightPathLayer w' = flightPathLayer w ∧
  isPlaying (animationState w') = isPlaying (animationState w) ∧
  timer (animationState w') = timer (animationState w) ∧
  radarMeta (animationState w') = radarMeta (animationState w) ∧
  currentFlightId (animationState w') = currentFlightId (animationState w) ∧
  btn_textContent (dom w') = btn_textContent (dom w) ∧
  btn_playing (dom w') = btn_playing (dom w) ∧
  controls_hidden (dom w') = controls_hidden (dom w) ∧
  slider_max (dom w') = slider_max (dom w) ∧
  slider_disabled (dom w') = slider_disabled (dom w) ∧
  browser w' = browser w.
Proof. unfold updateFrame. run_M. Qed.

Lemma script_updateFrame_consistent w i :
  timers_consistent w → timers_consistent (exec (updateFrame i) w).
Proof.
  unfold timers_consistent.
  destruct (script_updateFrame_frame w i) as (_ & _ & -> & -> & _ & _ & _ & _ & _ & _ & _ & ->).
  done.
Qed.

(** With a session in place [updateFrame] raises no exception, whatever
    the index. *)
Lemma script_updateFrame_completes w i :
  session_ready w → (updateFrame i w).1 = Normal ().
Proof.
  intros ([fd Hfd] & (meta & Hmeta & Hne) & [ov Hov] & [mk Hmk]).
  unfold updateFrame.
  destruct (index (points fd) i) as [p|] eqn:Hi; [|by follow_M].
  destruct (resolve_frame (timestamp_iso p) (frames meta)) as [f|] eqn:Hf; last first.
  { exfalso. unfold resolve_frame in Hf.
    destruct (frames meta) as [|f0 rest]; [done|].
    destruct (scan_frames_split (timestamp_iso p) (f0 :: rest) (index (f0 :: rest) 0))
      as [(? & ? & ? & _ & Hs & _)|[Hs _]]; rewrite Hs in Hf; done. }
  follow_M. case_bool_decide; by follow_M.
Qed.

(** On a point of the track, [updateFrame] records the file of the
    frame the lookup returns for the point's time, and shows the point:
    marker position and colour, slider value, time label. *)
Lemma script_updateFrame_shows w fd meta i p f :
  flightData w = Some fd → index (points fd) i = Some p →
  radarMeta (animationState w) = Some meta →
  resolve_frame (timestamp_iso p) (frames meta) = Some f →
  is_Some (radarOverlay w) → is_Some (airplaneMarker w) →
  let w' := exec (updateFrame i) w in
  currentRadarFile (animationState w') = Some (file f) ∧
  (currentRadarFile (animationState w) ≠ Some (file f) →
     ov_url <$> radarOverlay w' =
     Some (radar_frame_url (currentFlightId (animationState w)) (file f))) ∧
  (currentRadarFile (animationState w) = Some (file f) →
     radarOverlay w' = radarOverlay w) ∧
  mk_latlng <$> airplaneMarker w' = Some ((coordinates p).2, (coordinates p).1) ∧
  mk_fillColor <$> airplaneMarker w' = Some (Some (seeding_color (seeding_type p))) ∧
  slider_value (dom w') = i ∧
  timestamp_display (dom w') = Some (timestamp_iso p).
Proof.
  intros Hfd Hi Hmeta Hf [ov Hov] [mk Hmk].
  unfold updateFrame. follow_M.
  case_bool_decide as Hshown; follow_M; split_and!; done.
Qed.

(** The lookup inside [updateFrame]: on a session whose frames are in
    ascending order, moving to a point of the track makes the current
    radar file that of the last frame not later than the point, or of
    the first frame when the point is earlier than all of them. *)
Corollary script_updateFrame_selects w fd meta i p :
  flightData w = Some fd → index (points fd) i = Some p →
  radarMeta (animationState w) = Some meta →
  frames meta ≠ [] → ascending (frames meta) →
  is_Some (radarOverlay w) → is_Some (airplaneMarker w) →
  ∃ (k : nat) f,
    frames meta !! k = Some f ∧
    currentRadarFile (animationState (exec (updateFrame i) w)) = Some (file f) ∧
    ((time f ≤ timestamp_iso p ∧
      ∀ (j : nat) g, frames meta !! j = Some g → time g ≤ timestamp_iso p →
                     (j ≤ k)%nat ∧ time g ≤ time f)
     ∨ (k = 0%nat ∧ ∀ g, g ∈ frames meta → timestamp_iso p < time g)).
Proof.
  intros Hfd Hi Hmeta Hne Hasc Hov Hmk.
  destruct (resolve_frame_index (timestamp_iso p) (frames meta) Hasc Hne)
    as (k & f & Hk & Hr & Hspec).
  exists k, f. split_and!; [done| |done].
  by destruct (script_updateFrame_shows w fd meta i p f Hfd Hi Hmeta Hr Hov Hmk) as [? _].
Qed.
End ScriptFacts.

(** *** Observations that a computation preserves *)

Section Preserves.
Context {Meta T : Type} (V : World Meta → T).

Lemma preserves_ret {A} (a : A) : preserves V (ret a).
Proof. by intros w. Qed.

Lemma preserves_throw {A} e : preserves V (throw (A:=A) e).
Proof. by intros w. Qed.

Lemma preserves_gets {A} (f : World Meta → A) : preserves V (gets f).
Proof. by intros w. Qed.

Lemma preserves_modify (f : World Meta → World Meta) :
  (∀ w, V (f w) = V w) → preserves V (modify f).
Proof. intros Hf w. apply Hf. Qed.

Lemma preserves_bind {A B} (m : M Meta A) (k : A → M Meta B) :
  preserves V m → (∀ a, preserves V (k a)) → preserves V (bind m k).
Proof.
  intros Hm Hk w. unfold exec, bind. specialize (Hm w). unfold exec in Hm.
  destruct (m w) as [[a|e] w']; simpl in *; [|done].
  rewrite <- Hm. apply Hk.
Qed.

Lemma preserves_try_catch {A} (m : M Meta A) (h : Error → M Meta A) :
  preserves V m → (∀ e, preserves V (h e)) → preserves V (try_catch m h).
Proof.
  intros Hm Hh w. unfold exec, try_catch. specialize (Hm w). unfold exec in Hm.
  destruct (m w) as [[a|e] w']; simpl in *; [done|].
  rewrite <- Hm. apply Hh.
Qed.

Lemma preserves_deref {A} (o : option A) : preserves V (deref o).
Proof. destruct o; [apply preserves_ret|apply preserves_throw]. Qed.

Lemma preserves_await {A} (p : Settled A) : preserves V (await p).
Proof. destruct p; [apply preserves_ret|apply preserves_throw]. Qed.

Lemma preserves_nonnull {A} (f : World Meta → option A) : preserves V (nonnull f).
Proof.
  apply preserves_bind; [apply preserves_gets|]. intros o. apply preserves_deref.
Qed.
End Preserves.

(** Goes through a computation statement by statement; what remains are
    the writes, to be checked against the observation. *)
Ltac preserve_step :=
  lazymatch goal with
  | |- preserves _ (match ?x with _ => _ end) => destruct x
  | |- preserves _ (if ?x then _ else _) => destruct x
  | |- preserves _ (let _ := _ in _) => cbv zeta
  | |- preserves _ (ret _) => apply preserves_ret
  | |- preserves _ (throw _) => apply preserves_throw
  | |- preserves _ (gets _) => apply preserves_gets
  | |- preserves _ (deref _) => apply preserves_deref
  | |- preserves _ (await _) => apply preserves_await
  | |- preserves _ (nonnull _) => apply preserves_nonnull
  | |- preserves _ (bind _ _) => apply preserves_bind; [|intros ?]
  | |- preserves _ (try_catch _ _) => apply preserves_try_catch; [|intros ?]
  | |- preserves _ (modify _) => apply preserves_modify; intros ?; try reflexivity
  end.

Ltac preserve := repeat preserve_step.

Lemma timers_consistent_view {Meta} (w w' : World Meta) :
  timer_view w' = timer_view w → timers_consistent w → timers_consistent w'.
Proof.
  unfold timer_view, timers_consistent. intros [= -> -> ->]. done.
Qed.

Section SharedPreserves.
Context {Meta : Type}.

Lemma drawFlightPath_timers : preserves (Meta:=Meta) timer_view drawFlightPath.
Proof. unfold drawFlightPath. preserve. Qed.

Lemma alert_timers msg : preserves (Meta:=Meta) timer_view (alert msg).
Proof. unfold alert. preserve. Qed.

Lemma console_error_timers e : preserves (Meta:=Meta) timer_view (console_error e).
Proof. unfold console_error. preserve. Qed.

Lemma tick_timers (updateFrame : Z → M Meta unit) :
  (∀ i, preserves timer_view (updateFrame i)) → preserves timer_view (tick updateFrame).
Proof. intros H. unfold tick. preserve. apply H. Qed.

(** The position after a firing of the interval: one further, or [0]
    when that would leave the track. *)
Lemma tick_position (updateFrame : Z → M Meta unit) w fd :
  (∀ i w, currentIndex (animationState (exec (updateFrame i) w)) = i) →
  flightData w = Some fd →
  currentIndex (animationState (exec (tick updateFrame) w)) =
    if bool_decide (currentIndex (animationState w) + 1 >= Z.of_nat (length (points fd)))
    then 0 else currentIndex (animationState w) + 1.
Proof.
  intros Hu Hfd. unfold tick, nonnull, exec, bind, gets, deref. rewrite Hfd. simpl.
  apply Hu.
Qed.

Lemma tick_completes (updateFrame : Z → M Meta unit) w :
  is_Some (flightData w) → (∀ i, (updateFrame i w).1 = Normal ()) →
  (tick updateFrame w).1 = Normal ().
Proof.
  intros [fd Hfd] Hu. unfold tick, nonnull, bind, gets, deref. rewrite Hfd. simpl.
  apply Hu.
Qed.
End SharedPreserves.

Section ScriptPreserves.
Import Script.
Implicit Types (w : State).

Lemma script_updateFrame_timers i : preserves timer_view (updateFrame i).
Proof. unfold updateFrame. preserve. Qed.

Lemma script_updateFrame_radarMeta i :
  preserves (λ w, radarMeta (animationState w)) (updateFrame i).
Proof. unfold updateFrame. preserve. Qed.

Lemma script_setupAnimation_timers : preserves timer_view setupAnimation.
Proof. unfold setupAnimation. preserve. apply script_updateFrame_timers. Qed.

Lemma script_setupAnimation_radarMeta :
  preserves (λ w, radarMeta (animationState w)) setupAnimation.
Proof. unfold setupAnimation. preserve. apply script_updateFrame_radarMeta. Qed.

Lemma script_loadFlight_catch_timers e : preserves timer_view (loadFlight_catch e).
Proof. unfold loadFlight_catch, console_error, alert. preserve. Qed.

Lemma script_loadFlight_flight_timers g : preserves timer_view (loadFlight_flight g).
Proof. unfold loadFlight_flight. preserve. Qed.

Lemma script_loadFlight_radar_timers m : preserves timer_view (loadFlight_radar m).
Proof.
  unfold loadFlight_radar. preserve.
  - apply drawFlightPath_timers.
  - apply script_setupAnimation_timers.
Qed.

(** [resetMap] pauses and then only writes variables and the page. *)
Lemma script_resetMap_eq w :
  resetMap w =
  (Normal (),
   let w1 := exec pauseAnimation w in
   {| flightData := None;
      radarOverlay := removeLayer_overlay (radarOverlay w1);
      airplaneMarker := removeLayer_marker (airplaneMarker w1);
      flightPathLayer := removeLayer_path (flightPathLayer w1);
      animationState :=
        set_currentRadarFile None (set_currentIndex 0 (animationState w1));
      dom := set_slider_disabled true (set_controls_hidden true (dom w1));
      browser := browser w1 |}).
Proof.
  unfold resetMap. unfold exec, bind at 1.
  pose proof (pauseAnimation_completes w) as Hc.
  destruct (pauseAnimation w) as [[[]|e] w1]; simpl in *; [|done].
  reflexivity.
Qed.

Lemma script_resetMap_consistent w :
  timers_consistent w → timers_consistent (exec resetMap w).
Proof.
  intros H. unfold exec at 1. rewrite script_resetMap_eq. simpl.
  eapply timers_consistent_view; [|exact (pauseAnimation_consistent w H)].
  reflexivity.
Qed.

Lemma script_resetMap_intervals w :
  timers_consistent w → intervals (browser (exec resetMap w)) = ∅.
Proof.
  intros H. unfold exec at 1. rewrite script_resetMap_eq. simpl.
  by apply pauseAnimation_intervals.
Qed.

Lemma script_resetMap_stopped w : stopped (exec resetMap w).
Proof.
  unfold exec at 1. rewrite script_resetMap_eq. simpl.
  unfold stopped; simpl. split_and!; try done.
  - apply pauseAnimation_isPlaying.
  - by destruct (flightPathLayer _).
  - by destruct (airplaneMarker _).
  - by destruct (radarOverlay _).
Qed.

(** On a stopped world [resetMap] changes nothing. *)
Lemma script_resetMap_on_stopped w : stopped w → resetMap w = (Normal (), w).
Proof.
  intros (Hp & Hfd & Hi & Hf & Hpath & Hmk & Hov & Hc & Hs).
  rewrite script_resetMap_eq. unfold exec. rewrite (pauseAnimation_not_playing w Hp).
  simpl. f_equal.
  destruct w as [fd ov mk pl [pl' tm ci rm cf cr] [bt bp ch sm sv sd td] br].
  simpl in *. subst.
  destruct ov as [[]|], mk as [[]|], pl as [[]|]; simpl in *; subst; reflexivity.
Qed.

Lemma script_loadFlight_enter_consistent id w :
  timers_consistent w → timers_consistent (exec (loadFlight_enter id) w).
Proof.
  intros H. unfold loadFlight_enter, exec, bind. rewrite script_resetMap_eq. simpl.
  eapply timers_consistent_view; [|exact (pauseAnimation_consistent w H)].
  reflexivity.
Qed.

Lemma script_loadFlight_enter_intervals id w :
  timers_consistent w → intervals (browser (exec (loadFlight_enter id) w)) = ∅.
Proof.
  intros H. unfold loadFlight_enter, exec, bind. rewrite script_resetMap_eq. simpl.
  by apply pauseAnimation_intervals.
Qed.

(** Every event keeps the interval table consistent with the flag. *)
Lemma script_dispatch_consistent e w :
  timers_consistent w → timers_consistent (exec (dispatch e) w).
Proof.
  intros H. destruct e as [value|geojson|meta| |value|handle]; simpl.
  - unfold on_flight_select. case_bool_decide.
    + by apply script_loadFlight_enter_consistent.
    + by apply script_resetMap_consistent.
  - eapply timers_consistent_view; [|exact H].
    apply preserves_try_catch;
      [apply script_loadFlight_flight_timers|apply script_loadFlight_catch_timers].
  - eapply timers_consistent_view; [|exact H].
    apply preserves_try_catch;
      [apply script_loadFlight_radar_timers|apply script_loadFlight_catch_timers].
  - unfold on_play_pause_click, exec, bind, gets.
    destruct (isPlaying (animationState w)) eqn:Hp.
    + by apply pauseAnimation_consistent.
    + by apply playAnimation_consistent.
  - unfold on_slider_input, exec, bind.
    pose proof (pauseAnimation_completes w) as Hc.
    pose proof (pauseAnimation_consistent w H) as Hw. unfold exec in Hw.
    destruct (pauseAnimation w) as [[[]|err] w1]; simpl in *; [|done].
    by apply script_updateFrame_consistent.
  - unfold exec, bind, gets. case_bool_decide; [|done].
    eapply timers_consistent_view; [|exact H].
    apply tick_timers, script_updateFrame_timers.
Qed.

Lemma script_run_consistent events w :
  timers_consistent w → timers_consistent (run events w).
Proof.
  revert w. induction events as [|e events IH]; intros w H; simpl; [done|].
  apply IH. by apply script_dispatch_consistent.
Qed.

Lemma timers_consistent_size {Meta} (w : World Meta) :
  timers_consistent w → (size (intervals (browser w)) ≤ 1)%nat.
Proof.
  unfold timers_consistent. destruct (isPlaying _).
  - intros (h & _ & ->). by rewrite size_singleton.
  - intros ->. rewrite size_empty. lia.
Qed.
End ScriptPreserves.

(** *** [part_000] *)

Section Part000Facts.
Import Part000.
Implicit Types (w : State).

Lemma part000_updateFrame_out_of_range w fd i :
  flightData w = Some fd → index (points fd) i = None →
  updateFrame i w = (Normal (), with_animationState (set_currentIndex i) w).
Proof. intros Hfd Hi. unfold updateFrame. by follow_M. Qed.

Lemma part000_updateFrame_currentIndex w i :
  currentIndex (animationState (exec (updateFrame i) w)) = i.
Proof. unfold updateFrame. run_M. Qed.

Lemma part000_updateFrame_timers i : preserves timer_view (updateFrame i).
Proof. unfold updateFrame. preserve. Qed.

Lemma part000_updateFrame_completes w i :
  session_ready_000 w → (updateFrame i w).1 = Normal ().
Proof.
  intros ([fd Hfd] & [meta Hmeta] & [ov Hov] & [mk Hmk] & Hget).
  unfold updateFrame.
  destruct (index (points fd) i) as [p|] eqn:Hi; [|by follow_M].
  follow_M. case_bool_decide; by follow_M.
Qed.

(** On a point of the track, [updateFrame] points the overlay to the
    image numbered by the lookup for the point's time. *)
Lemma part000_updateFrame_shows w fd meta i p :
  flightData w = Some fd → index (points fd) i = Some p →
  radarMeta (animationState w) = Some meta →
  is_Some (radarOverlay w) → is_Some (airplaneMarker w) →
  overlay_getUrl (browser w) = true →
  let w' := exec (updateFrame i) w in
  ov_url <$> radarOverlay w' =
    Some (radar_frame_url (currentFlightId (animationState w))
            (frame_file (resolve_index (timestamp_iso p) (timestamps meta)))) ∧
  mk_latlng <$> airplaneMarker w' = Some ((coordinates p).2, (coordinates p).1) ∧
  mk_fillColor <$> airplaneMarker w' = Some (Some (seeding_color (seeding_type p))) ∧
  slider_value (dom w') = i ∧
  timestamp_display (dom w') = Some (timestamp_iso p).
Proof.
  intros Hfd Hi Hmeta [ov Hov] [mk Hmk] Hget.
  unfold updateFrame. follow_M.
  case_bool_decide as Hurl; follow_M; split_and!; try done.
  rewrite Hov. simpl. by rewrite Hurl.
Qed.

(** This version has no sort: the times are kept as fetched. *)
Lemma part000_loadFlight_radar_keeps_order w meta :
  ∃ meta', radarMeta (animationState (exec (loadFlight_radar (Resolved meta)) w)) = Some meta'
           ∧ timestamps meta' = timestamps meta.
Proof.
  exists meta. split; [|done].
  unfold loadFlight_radar, await.
  assert (preserves (λ w, radarMeta (animationState w))
            (drawFlightPath;; setupAnimation;;
             modify (with_dom (set_controls_hidden false)))) as Hp.
  { unfold drawFlightPath, setupAnimation, updateFrame. preserve. }
  unfold exec, bind at 1 2. simpl. apply Hp.
Qed.
End Part000Facts.

(** ** The sort of line 63 *)

Section SortFrames.
Import Script.

Lemma sort_insert_Permutation x l : sort_insert by_time x l ≡ₚ x :: l.
Proof.
  induction l as [|y l IH]; simpl; [done|].
  case_bool_decide; [|done].
  rewrite IH. apply Permutation_swap.
Qed.

Lemma sort_frames_Permutation l : Js.sort by_time l ≡ₚ l.
Proof.
  induction l as [|x l IH]; [done|].
  change (Js.sort by_time (x :: l)) with (sort_insert by_time x (Js.sort by_time l)).
  by rewrite sort_insert_Permutation, IH.
Qed.

Lemma sort_insert_ascending x l :
  ascending l → ascending (sort_insert by_time x l).
Proof.
  unfold ascending. induction 1 as [|y l Hl IH Hy]; simpl.
  - repeat constructor.
  - unfold by_time at 1. case_bool_decide as Hc.
    + constructor; [done|].
      rewrite sort_insert_Permutation. constructor; [lia|done].
    + constructor; [by constructor|].
      constructor; [lia|]. eapply Forall_impl; [exact Hy|]. simpl. intros; lia.
Qed.

(** The result is in ascending order of time. *)
Lemma sort_frames_ascending l : ascending (Js.sort by_time l).
Proof.
  induction l as [|x l IH]; [constructor|].
  change (Js.sort by_time (x :: l)) with (sort_insert by_time x (Js.sort by_time l)).
  by apply sort_insert_ascending.
Qed.

(** Insertion passes only frames that are strictly earlier, so it never
    moves a frame across another of the same time. *)
Lemma sort_insert_filter t x l :
  filter (λ f, time f = t) (sort_insert by_time x l) = filter (λ f, time f = t) (x :: l).
Proof.
  induction l as [|y l IH]; simpl; [done|].
  unfold by_time at 1. case_bool_decide as Hc; [|done].
  rewrite filter_cons, IH, !filter_cons.
  repeat case_decide; try done. lia.
Qed.

(** The sort is stable: the frames of any one time come out in the
    order in which they went in. *)
Lemma sort_frames_stable t l :
  filter (λ f, time f = t) (Js.sort by_time l) = filter (λ f, time f = t) l.
Proof.
  induction l as [|x l IH]; [done|].
  change (Js.sort by_time (x :: l)) with (sort_insert by_time x (Js.sort by_time l)).
  rewrite sort_insert_filter, !filter_cons, IH. done.
Qed.

Lemma ascending_head_least f fs g :
  ascending (f :: fs) → g ∈ f :: fs → time f ≤ time g.
Proof.
  intros [_ Hf]%ascending_cons_inv [->|Hg]%elem_of_cons; [lia|].
  rewrite Forall_forall in Hf. by apply Hf.
Qed.

(** Two ascending sequences that hold, for every time, the same frames
    in the same order are equal. *)
Lemma ascending_stable_unique l1 l2 :
  ascending l1 → ascending l2 →
  (∀ t, filter (λ f, time f = t) l1 = filter (λ f, time f = t) l2) →
  l1 = l2.
Proof.
  revert l2. induction l1 as [|a l1 IH]; intros [|b l2] H1 H2 Hf.
  - done.
  - specialize (Hf (time b)). rewrite filter_nil, filter_cons_True in Hf by done. done.
  - specialize (Hf (time a)). rewrite filter_nil, filter_cons_True in Hf by done. done.
  - assert (a ∈ b :: l2) as Ha.
    { assert (a ∈ filter (λ f, time f = time a) (b :: l2)) as Hin.
      { rewrite <- Hf, filter_cons_True by done. by left. }
      by apply list_elem_of_filter in Hin as [_ ?]. }
    assert (b ∈ a :: l1) as Hb.
    { assert (b ∈ filter (λ f, time f = time b) (a :: l1)) as Hin.
      { rewrite Hf, filter_cons_True by done. by left. }
      by apply list_elem_of_filter in Hin as [_ ?]. }
    pose proof (ascending_head_least _ _ _ H2 Ha).
    pose proof (ascending_head_least _ _ _ H1 Hb).
    assert (time a = time b) as Hab by lia.
    pose proof (Hf (time a)) as Hhead.
    rewrite !filter_cons_True in Hhead by done.
    injection Hhead as -> Htail. f_equal.
    apply IH; [by apply ascending_cons_inv in H1 as [? _]
              |by apply ascending_cons_inv in H2 as [? _]|].
    intros t. destruct (decide (time b = t)) as [<-|Hne]; [done|].
    specialize (Hf t). by rewrite !filter_cons_False in Hf by done.
Qed.

(** Hence the result of line 63 does not depend on how the engine
    sorts: any ascending, stable arrangement of the frames is the one
    computed here. *)
Lemma sort_frames_unique l l' :
  ascending l' →
  (∀ t, filter (λ f, time f = t) l' = filter (λ f, time f = t) l) →
  l' = Js.sort by_time l.
Proof.
  intros Hasc Hst. apply ascending_stable_unique; [done|apply sort_frames_ascending|].
  intros t. by rewrite Hst, sort_frames_stable.
Qed.
End SortFrames.

(** ** Loading a flight in [script.js] *)

Section ScriptLoad.
Import Script.
Implicit Types (w : State).

Lemma script_loadFlight_enter_eq id w :
  loadFlight_enter id w =
  (Normal (), with_animationState (set_currentFlightId (Some id)) (exec resetMap w)).
Proof.
  unfold loadFlight_enter, exec, bind. by rewrite script_resetMap_eq.
Qed.

(** With both fetches resolved, [loadFlight] resets, stores the flight
    data and the sorted radar metadata, and then draws and sets up
    under the [catch]. *)
Lemma script_loadFlight_resolved id features meta w :
  loadFlight id (Resolved features) (Resolved meta) w =
  try_catch
    (drawFlightPath;; setupAnimation;; modify (with_dom (set_controls_hidden false)))
    loadFlight_catch
    (with_animationState (set_radarMeta (Some (sort_frames meta)))
       (set_flightData
          (Some {| path := find_LineString features; points := filter_Point features |})
          (with_animationState (set_currentFlightId (Some id)) (exec resetMap w)))).
Proof.
  unfold loadFlight. unfold bind at 1. rewrite script_loadFlight_enter_eq.
  reflexivity.
Qed.

Lemma script_loadFlight_tail_radarMeta :
  preserves (λ w, radarMeta (animationState w))
    (try_catch
       (drawFlightPath;; setupAnimation;; modify (with_dom (set_controls_hidden false)))
       loadFlight_catch).
Proof.
  apply preserves_try_catch.
  - apply preserves_bind; [unfold drawFlightPath; preserve|intros _].
    apply preserves_bind; [apply script_setupAnimation_radarMeta|intros _].
    preserve.
  - intros e. unfold loadFlight_catch, console_error, alert. preserve.
Qed.

(** After a load whose fetches resolved, the stored metadata is the
    fetched one with its frames sorted, whether or not the set-up that
    follows completes. *)
Lemma script_loadFlight_radarMeta id features meta w :
  radarMeta (animationState (exec (loadFlight id (Resolved features) (Resolved meta)) w))
  = Some (sort_frames meta).
Proof.
  unfold exec. rewrite script_loadFlight_resolved.
  exact (script_loadFlight_tail_radarMeta _).
Qed.

(** [setupAnimation] throws when the track or the frame array is empty. *)
Lemma script_setupAnimation_empty w fd meta :
  flightData w = Some fd → radarMeta (animationState w) = Some meta →
  points fd = [] ∨ frames meta = [] →
  ∃ e, (setupAnimation w).1 = Throw e ∧
       let w' := exec setupAnimation w in
       flightData w' = flightData w ∧ flightPathLayer w' = flightPathLayer w ∧
       animationState w' = animationState w ∧ dom w' = dom w ∧ browser w' = browser w.
Proof.
  intros Hfd Hmeta Hempty. unfold setupAnimation.
  destruct (index (points fd) 0) as [p|] eqn:Hp; [|exists TypeError; by follow_M].
  destruct Hempty as [Hps|Hfr]; [by rewrite index_0, Hps in Hp|].
  assert (index (frames meta) 0 = None) as Hf by (by rewrite index_0, Hfr).
  destruct (start_point_0 (browser w)) as [x|] eqn:Hsp.
  - exists TypeError. by follow_M.
  - exists ReferenceError. by follow_M.
Qed.

(** Unless the page binds [start_point], [setupAnimation] throws on
    every world: line 86 cannot be passed. *)
Lemma script_setupAnimation_unbound w :
  start_point_0 (browser w) = None →
  ∃ e, (setupAnimation w).1 = Throw e.
Proof.
  intros Hsp. unfold setupAnimation.
  destruct (flightData w) as [fd|] eqn:Hfd; [|exists TypeError; by follow_M].
  destruct (index (points fd) 0) as [p|] eqn:Hp; [|exists TypeError; by follow_M].
  exists ReferenceError. by follow_M.
Qed.
End ScriptLoad.

Section ScriptLoadFailure.
Import Script.
Implicit Types (w : State).

Lemma drawFlightPath_eq {Meta} (x : World Meta) fd :
  flightData x = Some fd →
  ∃ y, drawFlightPath x = (Normal (), y) ∧
       flightData y = flightData x ∧ radarOverlay y = radarOverlay x ∧
       airplaneMarker y = airplaneMarker x ∧
       animationState y = animationState x ∧ dom y = dom x ∧ browser y = browser x.
Proof.
  intros Hfd. unfold drawFlightPath.
  destruct (path fd) as [p|] eqn:Hp; eexists; (split; [by follow_M|done]).
Qed.

(** The end of a load whose set-up throws for want of a first point or
    a first frame: the [catch] reports the error; variables and page
    stay as they were when the set-up began. *)
Lemma script_loadFlight_tail_empty w fd meta :
  flightData w = Some fd → radarMeta (animationState w) = Some meta →
  points fd = [] ∨ frames meta = [] →
  let w' := exec (try_catch
                    (drawFlightPath;; setupAnimation;;
                     modify (with_dom (set_controls_hidden false)))
                    loadFlight_catch) w in
  flightData w' = flightData w ∧ animationState w' = animationState w ∧
  dom w' = dom w ∧
  intervals (browser w') = intervals (browser w) ∧
  alerts (browser w') = alerts (browser w) ++ [load_failed_message] ∧
  ∃ e, console_errors (browser w') = console_errors (browser w) ++ [e].
Proof.
  intros Hfd Hmeta Hempty w'.
  destruct (drawFlightPath_eq w fd Hfd) as (w1 & Hd & Hfd1 & _ & _ & Ha1 & Hd1 & Hb1).
  destruct (script_setupAnimation_empty w1 fd meta) as (e & He & Hs);
    [congruence|congruence|done|].
  assert (w' = exec (loadFlight_catch e) (exec setupAnimation w1)) as ->.
  { subst w'. unfold exec, try_catch, bind. rewrite Hd.
    destruct (setupAnimation w1) as [c w2]; simpl in *. by subst c. }
  destruct Hs as (Hfd2 & _ & Ha2 & Hd2 & Hb2).
  unfold loadFlight_catch, console_error, alert. unfold exec at 1 2 3 4 5 6.
  unfold bind, modify. simpl. fold (exec setupAnimation w1).
  rewrite Hb2, Hb1. split_and!; try congruence; try done. by exists e.
Qed.

Lemma script_loadFlight_tail_timers :
  preserves timer_view
    (try_catch
       (drawFlightPath;; setupAnimation;; modify (with_dom (set_controls_hidden false)))
       loadFlight_catch).
Proof.
  apply preserves_try_catch.
  - apply preserves_bind; [apply drawFlightPath_timers|intros _].
    apply preserves_bind; [apply script_setupAnimation_timers|intros _].
    preserve.
  - intros e. apply script_loadFlight_catch_timers.
Qed.

(** However its fetches settle, a load leaves no interval active. *)
Lemma script_loadFlight_intervals id geojson meta w :
  timers_consistent w →
  intervals (browser (exec (loadFlight id geojson meta) w)) = ∅.
Proof.
  intros H. unfold loadFlight, exec, bind at 1. rewrite script_loadFlight_enter_eq.
  pose proof (script_resetMap_intervals w H) as Hi.
  set (w1 := with_animationState _ _).
  assert (preserves timer_view
            (try_catch (loadFlight_flight geojson;; loadFlight_radar meta)
               loadFlight_catch)) as Hp.
  { apply preserves_try_catch; [|intros e; apply script_loadFlight_catch_timers].
    apply preserves_bind; [apply script_loadFlight_flight_timers|intros _].
    apply script_loadFlight_radar_timers. }
  specialize (Hp w1). unfold timer_view, exec in Hp.
  injection Hp as _ _ ->. exact Hi.
Qed.
End ScriptLoadFailure.

Lemma surjective_pairing_completes {Meta} (m : M Meta unit) (w : World Meta) :
  (m w).1 = Normal () → m w = (Normal (), exec m w).
Proof. unfold exec. destruct (m w) as [c w']. simpl. by intros ->. Qed.

Lemma playAnimation_isPlaying {Meta} (w : World Meta) :
  isPlaying (animationState (exec playAnimation w)) = true.
Proof.
  unfold playAnimation, setInterval, exec, bind, gets, modify, ret.
  by destruct (isPlaying (animationState w)) eqn:E.
Qed.

Lemma script_loadFlight_isPlaying id geojson meta (w : Script.State) :
  isPlaying (animationState (exec (Script.loadFlight id geojson meta) w)) = false.
Proof.
  unfold Script.loadFlight, exec, bind at 1. rewrite script_loadFlight_enter_eq.
  set (w1 := with_animationState _ _).
  assert (preserves timer_view
            (try_catch (Script.loadFlight_flight geojson;; Script.loadFlight_radar meta)
               Script.loadFlight_catch)) as Hp.
  { apply preserves_try_catch; [|intros e; apply script_loadFlight_catch_timers].
    apply preserves_bind; [apply script_loadFlight_flight_timers|intros _].
    apply script_loadFlight_radar_timers. }
  specialize (Hp w1). unfold timer_view, exec in Hp.
  injection Hp as -> _ _. subst w1. simpl.
  apply (script_resetMap_stopped w).
Qed.


(** ** Claims about the playback controller *)

(** C4, as stated, fails: the slider listener does not clamp.  With the
    three-point track of scenario A loaded, a seek to 7 leaves the stored
    position at 7, outside [0, 2]. *)
Lemma C4_seek_counterexample :
  (points <$> flightData scenario_world) = Some scenario_points ∧
  length scenario_points = 3%nat ∧
  let w' := exec (on_slider_input Script.updateFrame 7) scenario_world in
  currentIndex (animationState w') = 7 ∧
  ¬ (0 ≤ currentIndex (animationState w') ≤ 3 - 1).
Proof.
  split; [reflexivity|]. split; [reflexivity|]. cbv zeta. split.
  - vm_compute. reflexivity.
  - vm_compute. intros [_ H]. by apply H.
Qed.

(** C4, amended.  For a loaded track of length [n] and any seek target
    [i], the slider listener first pauses (flag off, interval cleared)
    and then stores [i] itself as the position, without clamping: the
    position lies in [0, n-1] exactly when [i] does.  A target outside
    the track raises no exception and changes nothing but the stored
    position. *)
Theorem C4_seek (w : Script.State) (fd : FlightData) (i : Z) :
  flightData w = Some fd →
  timers_consistent w →
  let n := Z.of_nat (length (points fd)) in
  let w' := exec (on_slider_input Script.updateFrame i) w in
  isPlaying (animationState w') = false ∧
  intervals (browser w') = ∅ ∧
  currentIndex (animationState w') = i ∧
  (0 ≤ currentIndex (animationState w') ≤ n - 1 ↔ 0 ≤ i ≤ n - 1) ∧
  (i < 0 ∨ n ≤ i →
     on_slider_input Script.updateFrame i w =
       (Normal (), with_animationState (set_currentIndex i) (exec pauseAnimation w))).
Proof.
  intros Hfd Hcons n w'.
  assert (w' = exec (Script.updateFrame i) (exec pauseAnimation w)) as Hw'.
  { subst w'. unfold on_slider_input, exec, bind.
    pose proof (pauseAnimation_completes w) as Hc.
    by destruct (pauseAnimation w) as [[[]|e] w1]; simpl in *. }
  destruct (script_updateFrame_frame (exec pauseAnimation w) i)
    as (_ & _ & Hp & _ & _ & _ & _ & _ & _ & _ & _ & Hb).
  rewrite Hw'. split_and!.
  - rewrite Hp. apply pauseAnimation_isPlaying.
  - rewrite Hb. by apply pauseAnimation_intervals.
  - apply script_updateFrame_currentIndex.
  - by rewrite script_updateFrame_currentIndex.
  - intros Hout. unfold on_slider_input, bind.
    pose proof (pauseAnimation_completes w) as Hc.
    destruct (pauseAnimation_frame w) as (Hfd' & _).
    unfold exec in *.
    destruct (pauseAnimation w) as [[[]|e] w1]; simpl in *; [|done].
    apply (script_updateFrame_out_of_range w1 fd i); [congruence|].
    by apply index_None.
Qed.

Lemma C4_seek_witness :
  flightData scenario_world = Some scenario_flightData ∧
  timers_consistent scenario_world ∧
  let n := Z.of_nat (length scenario_points) in
  let w' := exec (on_slider_input Script.updateFrame 7) scenario_world in
  isPlaying (animationState w') = false ∧
  intervals (browser w') = ∅ ∧
  currentIndex (animationState w') = 7 ∧
  (0 ≤ currentIndex (animationState w') ≤ n - 1 ↔ 0 ≤ 7 ≤ n - 1) ∧
  (7 < 0 ∨ n ≤ 7 →
     on_slider_input Script.updateFrame 7 scenario_world =
       (Normal (), with_animationState (set_currentIndex 7)
                     (exec pauseAnimation scenario_world))).
Proof.
  assert (flightData scenario_world = Some scenario_flightData)
    as H1 by reflexivity.
  assert (timers_consistent scenario_world) as H2
    by (exists 1; split; reflexivity).
  split; [exact H1|]. split; [exact H2|].
  exact (C4_seek scenario_world _ 7 H1 H2).
Defined.

(** C5, as stated, fails: a load whose track has no point does end in
    the alert, but the state it leaves is not the reset one.  The flight
    data and the radar metadata just fetched stay in their variables. *)
Lemma C5_empty_series_counterexample :
  let w' := exec (Script.loadFlight "flight1" (Resolved [LineString scenario_path])
                    (Resolved scenario_meta))
              (initial served_page None false) in
  filter_Point [LineString scenario_path] = [] ∧
  alerts (browser w') = [Script.load_failed_message] ∧
  flightData w' = Some {| path := Some scenario_path; points := [] |} ∧
  radarMeta (animationState w') = Some scenario_meta ∧
  flightPathLayer w' = Some {| pl_path := scenario_path; pl_onMap := true |} ∧
  ¬ stopped w'.
Proof.
  cbv zeta. split_and!; try (vm_compute; reflexivity).
  intros (_ & Hfd & _). vm_compute in Hfd. discriminate.
Qed.

(** C5, amended.  A load whose fetched track has no point or whose
    fetched radar sequence has no frame does not reach the paused state:
    the set-up throws, the [catch] raises the alert, the controls stay
    hidden and the slider disabled, nothing is playing, no interval is
    active and the position is 0.  The state is not the reset one: the
    flight data, the sorted radar metadata and the flight id of this
    load stay stored. *)
Theorem C5_empty_series_load (w : Script.State) (id : string)
    (features : list Feature) (meta : Script.RadarMeta) :
  filter_Point features = [] ∨ Script.frames meta = [] →
  timers_consistent w →
  let w' := exec (Script.loadFlight id (Resolved features) (Resolved meta)) w in
  alerts (browser w') = alerts (browser w) ++ [Script.load_failed_message] ∧
  controls_hidden (dom w') = true ∧
  slider_disabled (dom w') = true ∧
  isPlaying (animationState w') = false ∧
  intervals (browser w') = ∅ ∧
  currentIndex (animationState w') = 0 ∧
  flightData w' =
    Some {| path := find_LineString features; points := filter_Point features |} ∧
  radarMeta (animationState w') = Some (Script.sort_frames meta) ∧
  currentFlightId (animationState w') = Some id.
Proof.
  intros Hempty Hcons w'.
  pose proof (script_resetMap_stopped w) as (Hp & _ & Hi & _ & _ & _ & _ & Hc & Hs).
  pose proof (script_resetMap_intervals w Hcons) as Hint.
  assert (alerts (browser (exec Script.resetMap w)) = alerts (browser w)) as Hal.
  { unfold exec at 1. rewrite script_resetMap_eq. simpl.
    by destruct (pauseAnimation_frame w)
      as (_ & _ & _ & _ & _ & _ & _ & _ & _ & _ & _ & _ & _ & _ & -> & _). }
  subst w'. unfold exec at 1 2 3 4 5 6 7 8 9. rewrite script_loadFlight_resolved.
  set (w3 := with_animationState _ _).
  destruct (script_loadFlight_tail_empty w3
              {| path := find_LineString features; points := filter_Point features |}
              (Script.sort_frames meta))
    as (Hfd' & Ha' & Hd' & Hi' & Hal' & _); [done|done| |].
  { destruct Hempty as [?|Hfr]; [by left|right]. simpl. by rewrite Hfr. }
  unfold exec in *. rewrite Hfd', Ha', Hd', Hi', Hal'. subst w3. simpl.
  rewrite Hal. split_and!; done.
Qed.

Lemma C5_empty_series_load_witness :
  (filter_Point [] = [] ∨ Script.frames scenario_meta = []) ∧
  timers_consistent scenario_world ∧
  let w' := exec (Script.loadFlight "flight2" (Resolved []) (Resolved scenario_meta))
              scenario_world in
  alerts (browser w') = alerts (browser scenario_world) ++ [Script.load_failed_message] ∧
  controls_hidden (dom w') = true ∧
  slider_disabled (dom w') = true ∧
  isPlaying (animationState w') = false ∧
  intervals (browser w') = ∅ ∧
  currentIndex (animationState w') = 0 ∧
  flightData w' = Some {| path := find_LineString []; points := filter_Point [] |} ∧
  radarMeta (animationState w') = Some (Script.sort_frames scenario_meta) ∧
  currentFlightId (animationState w') = Some "flight2".
Proof.
  assert (filter_Point [] = [] ∨ Script.frames scenario_meta = []) as H1
    by (left; reflexivity).
  assert (timers_consistent scenario_world) as H2 by (exists 1; split; reflexivity).
  exact (conj H1 (conj H2
           (C5_empty_series_load scenario_world "flight2" [] scenario_meta H1 H2))).
Defined.

(** C6.  With a track of length [n] loaded and the position [p] inside
    it, one firing of the playback interval sets the position to [p + 1]
    when [p + 1 < n] and to [0] otherwise, in both versions; with a
    session in place the callback raises no exception. *)
Theorem C6_tick_wraps (w : Script.State) (w0 : Part000.State) (fd fd0 : FlightData) :
  flightData w = Some fd →
  0 ≤ currentIndex (animationState w) < Z.of_nat (length (points fd)) →
  session_ready w →
  flightData w0 = Some fd0 →
  0 ≤ currentIndex (animationState w0) < Z.of_nat (length (points fd0)) →
  session_ready_000 w0 →
  (let p := currentIndex (animationState w) in
   let n := Z.of_nat (length (points fd)) in
   tick Script.updateFrame w = (Normal (), exec (tick Script.updateFrame) w) ∧
   currentIndex (animationState (exec (tick Script.updateFrame) w)) =
     if bool_decide (p + 1 < n) then p + 1 else 0)
  ∧
  (let p := currentIndex (animationState w0) in
   let n := Z.of_nat (length (points fd0)) in
   tick Part000.updateFrame w0 = (Normal (), exec (tick Part000.updateFrame) w0) ∧
   currentIndex (animationState (exec (tick Part000.updateFrame) w0)) =
     if bool_decide (p + 1 < n) then p + 1 else 0).
Proof.
  intros Hfd Hp Hready Hfd0 Hp0 Hready0. split; simpl.
  - split.
    + apply surjective_pairing_completes.
      apply tick_completes; [by rewrite Hfd|].
      intros i. by apply script_updateFrame_completes.
    + rewrite (tick_position Script.updateFrame w fd);
        [|intros; apply script_updateFrame_currentIndex|done].
      repeat case_bool_decide; lia.
  - split.
    + apply surjective_pairing_completes.
      apply tick_completes; [by rewrite Hfd0|].
      intros i. by apply part000_updateFrame_completes.
    + rewrite (tick_position Part000.updateFrame w0 fd0);
        [|intros; apply part000_updateFrame_currentIndex|done].
      repeat case_bool_decide; lia.
Qed.

Lemma C6_tick_wraps_witness :
  flightData scenario_world = Some scenario_flightData ∧
  0 ≤ currentIndex (animationState scenario_world)
    < Z.of_nat (length (points scenario_flightData)) ∧
  session_ready scenario_world ∧
  flightData scenario_world_000 = Some scenario_flightData ∧
  0 ≤ currentIndex (animationState scenario_world_000)
    < Z.of_nat (length (points scenario_flightData)) ∧
  session_ready_000 scenario_world_000 ∧
  currentIndex (animationState (exec (tick Script.updateFrame) scenario_world)) = 2 ∧
  currentIndex (animationState (exec (tick Part000.updateFrame) scenario_world_000)) = 2.
Proof.
  assert (flightData scenario_world = Some scenario_flightData) as H1 by reflexivity.
  assert (0 ≤ currentIndex (animationState scenario_world)
            < Z.of_nat (length (points scenario_flightData))) as H2 by (simpl; lia).
  assert (session_ready scenario_world) as H3.
  { split_and!; [by eexists| |by eexists|by eexists].
    exists scenario_meta. split; [reflexivity|discriminate]. }
  assert (flightData scenario_world_000 = Some scenario_flightData) as H4 by reflexivity.
  assert (0 ≤ currentIndex (animationState scenario_world_000)
            < Z.of_nat (length (points scenario_flightData))) as H5 by (simpl; lia).
  assert (session_ready_000 scenario_world_000) as H6.
  { split_and!; [by eexists|by eexists|by eexists|by eexists|reflexivity]. }
  destruct (C6_tick_wraps scenario_world scenario_world_000 _ _ H1 H2 H3 H4 H5 H6)
    as [[_ Ha] [_ Hb]].
  exact (conj H1 (conj H2 (conj H3 (conj H4 (conj H5 (conj H6 (conj Ha Hb))))))).
Defined.

(** C7.  Pausing twice is the same as pausing once: the second call
    returns at its first line.  A pause completes normally, cancels the
    interval and keeps the position.  [resetMap] on a stopped world is a
    no-op that raises no exception. *)
Theorem C7_pause_idempotent_reset_noop (w s : Script.State) :
  timers_consistent w →
  stopped s →
  (pauseAnimation;; pauseAnimation) w = pauseAnimation w ∧
  pauseAnimation w = (Normal (), exec pauseAnimation w) ∧
  isPlaying (animationState (exec pauseAnimation w)) = false ∧
  intervals (browser (exec pauseAnimation w)) = ∅ ∧
  currentIndex (animationState (exec pauseAnimation w)) = currentIndex (animationState w) ∧
  Script.resetMap s = (Normal (), s).
Proof.
  intros Hcons Hstopped.
  assert (pauseAnimation w = (Normal (), exec pauseAnimation w)) as Hp
    by apply surjective_pairing_completes, pauseAnimation_completes.
  split_and!.
  - unfold bind. rewrite Hp. rewrite pauseAnimation_twice. done.
  - done.
  - apply pauseAnimation_isPlaying.
  - by apply pauseAnimation_intervals.
  - by destruct (pauseAnimation_frame w) as (_ & _ & _ & _ & _ & -> & _).
  - by apply script_resetMap_on_stopped.
Qed.

Lemma C7_pause_idempotent_reset_noop_witness :
  timers_consistent scenario_world ∧
  stopped (initial served_page None false) ∧
  (pauseAnimation;; pauseAnimation) scenario_world = pauseAnimation scenario_world ∧
  intervals (browser (exec pauseAnimation scenario_world)) = ∅ ∧
  currentIndex (animationState (exec pauseAnimation scenario_world)) = 1 ∧
  Script.resetMap (initial served_page None false)
    = (Normal (), initial served_page None false).
Proof.
  assert (timers_consistent scenario_world) as H1 by (exists 1; split; reflexivity).
  assert (stopped (initial (Meta:=Script.RadarMeta) served_page None false)) as H2
    by (unfold stopped; simpl; done).
  destruct (C7_pause_idempotent_reset_noop scenario_world _ H1 H2)
    as (Ha & _ & _ & Hb & Hc & Hd).
  exact (conj H1 (conj H2 (conj Ha (conj Hb (conj Hc Hd))))).
Defined.

(** C8.  At most one interval is ever active.  After any sequence of
    events (flight selections, settled fetches in any order, play/pause
    clicks, slider inputs, interval firings) from the initial state, the
    interval table has at most one entry and agrees with the playing
    flag; a [playAnimation] that follows a [playAnimation] returns at its
    first line and sets no second interval; entering a load, and each of
    two loads in succession, leaves no interval active. *)
Theorem C8_single_timer (page : Dom) (sp : option Q) (g : bool)
    (events : list Script.Event) (id1 id2 : string)
    (g1 g2 : Settled (list Feature)) (m1 m2 : Settled Script.RadarMeta) :
  let w := Script.run events (initial page sp g) in
  (size (intervals (browser w)) ≤ 1)%nat ∧
  timers_consistent w ∧
  playAnimation (exec playAnimation w) = (Normal (), exec playAnimation w) ∧
  (size (intervals (browser (exec playAnimation w))) ≤ 1)%nat ∧
  intervals (browser (exec (Script.loadFlight_enter id1) w)) = ∅ ∧
  intervals (browser (exec (Script.loadFlight id1 g1 m1) w)) = ∅ ∧
  intervals (browser (exec (Script.loadFlight id2 g2 m2)
                        (exec (Script.loadFlight id1 g1 m1) w))) = ∅.
Proof.
  intros w.
  assert (timers_consistent w) as Hcons.
  { apply script_run_consistent. reflexivity. }
  assert (timers_consistent (exec (Script.loadFlight id1 g1 m1) w)) as Hcons1.
  { unfold timers_consistent.
    rewrite script_loadFlight_isPlaying, script_loadFlight_intervals; done. }
  split_and!.
  - by apply timers_consistent_size.
  - done.
  - apply playAnimation_playing, playAnimation_isPlaying.
  - apply timers_consistent_size. by apply playAnimation_consistent.
  - by apply script_loadFlight_enter_intervals.
  - by apply script_loadFlight_intervals.
  - by apply script_loadFlight_intervals.
Qed.


(** C10.  Called with an index at which the track has no point,
    [updateFrame] writes the index to [currentIndex] and returns: the
    world is the one before the call with only that field replaced, so
    the overlay, the marker, the slider and the time label are untouched.
    Both versions. *)
Theorem C10_updateFrame_out_of_range (w : Script.State) (w0 : Part000.State)
    (fd fd0 : FlightData) (i : Z) :
  flightData w = Some fd →
  flightData w0 = Some fd0 →
  i < 0 ∨ Z.of_nat (length (points fd)) ≤ i →
  i < 0 ∨ Z.of_nat (length (points fd0)) ≤ i →
  (Script.updateFrame i w = (Normal (), with_animationState (set_currentIndex i) w) ∧
   let w' := exec (Script.updateFrame i) w in
   currentIndex (animationState w') = i ∧
   radarOverlay w' = radarOverlay w ∧
   currentRadarFile (animationState w') = currentRadarFile (animationState w) ∧
   airplaneMarker w' = airplaneMarker w ∧
   dom w' = dom w ∧ browser w' = browser w)
  ∧
  (Part000.updateFrame i w0 = (Normal (), with_animationState (set_currentIndex i) w0) ∧
   let w' := exec (Part000.updateFrame i) w0 in
   currentIndex (animationState w') = i ∧
   radarOverlay w' = radarOverlay w0 ∧
   airplaneMarker w' = airplaneMarker w0 ∧
   dom w' = dom w0 ∧ browser w' = browser w0).
Proof.
  intros Hfd Hfd0 Hi Hi0. split.
  - assert (Script.updateFrame i w
            = (Normal (), with_animationState (set_currentIndex i) w)) as Hu.
    { apply (script_updateFrame_out_of_range w fd); [done|by apply index_None]. }
    split; [done|]. unfold exec. rewrite Hu. done.
  - assert (Part000.updateFrame i w0
            = (Normal (), with_animationState (set_currentIndex i) w0)) as Hu.
    { apply (part000_updateFrame_out_of_range w0 fd0); [done|by apply index_None]. }
    split; [done|]. unfold exec. rewrite Hu. done.
Qed.

Lemma C10_updateFrame_out_of_range_witness :
  flightData scenario_world = Some scenario_flightData ∧
  flightData scenario_world_000 = Some scenario_flightData ∧
  (3 < 0 ∨ Z.of_nat (length (points scenario_flightData)) ≤ 3) ∧
  Script.updateFrame 3 scenario_world
    = (Normal (), with_animationState (set_currentIndex 3) scenario_world) ∧
  Part000.updateFrame 3 scenario_world_000
    = (Normal (), with_animationState (set_currentIndex 3) scenario_world_000).
Proof.
  assert (flightData scenario_world = Some scenario_flightData) as H1 by reflexivity.
  assert (flightData scenario_world_000 = Some scenario_flightData) as H2 by reflexivity.
  assert (3 < 0 ∨ Z.of_nat (length (points scenario_flightData)) ≤ 3) as H3
    by (right; simpl; lia).
  destruct (C10_updateFrame_out_of_range scenario_world scenario_world_000 _ _ 3 H1 H2 H3 H3)
    as [[Ha _] [Hb _]].
  exact (conj H1 (conj H2 (conj H3 (conj Ha Hb)))).
Defined.

(** * Further properties of the code *)

(** ** The frame lookup beyond sorted input *)

Section ResolverExtras.
Import Script.

Lemma scan_frames_elem t fs acc f :
  scan_frames t fs acc = Some f → acc = Some f ∨ f ∈ fs.
Proof.
  revert acc. induction fs as [|h rest IH]; intros acc; simpl; [by left|].
  case_bool_decide; [|by left].
  intros Hs. apply IH in Hs as [Hh|Hin]; right.
  - injection Hh as ->. apply elem_of_cons. by left.
  - apply elem_of_cons. by right.
Qed.

Lemma resolve_frame_None t fs : resolve_frame t fs = None → fs = [].
Proof.
  unfold resolve_frame. rewrite index_0.
  destruct fs as [|h rest]; [done|]. simpl. intros Hs.
  destruct (scan_frames_split t (h :: rest) (Some h))
    as [(? & ? & ? & _ & Hs' & _)|[Hs' _]]; simpl in Hs'; congruence.
Qed.

(** X1.  The lookup of [script.js] yields no frame exactly when the frame
    array is empty (the case in which [updateFrame] then throws on
    [correctFrame.file]); any frame it yields is an element of the array.
    No order of the frames is assumed. *)
Theorem X1_resolve_frame_defined (t : Date) (fs : list Frame) :
  (resolve_frame t fs = None ↔ fs = []) ∧
  (∀ f, resolve_frame t fs = Some f → f ∈ fs).
Proof.
  split.
  - split; [apply resolve_frame_None|by intros ->].
  - unfold resolve_frame. rewrite index_0.
    intros f [Hh|?]%scan_frames_elem; [|done].
    destruct fs; simplify_eq/=. by left.
Qed.

(** X2.  Without any assumption on the order of the frames, the forward
    scan of [script.js] stops at the first frame later than [t]: the
    array splits as [pre ++ f :: post] with every frame of [pre] and [f]
    itself not later than [t], [post] empty or starting with a frame
    later than [t], and [f] is returned; or the very first frame is later
    than [t] and is returned.  Frames after the first later one are
    never looked at, so on unsorted input a frame not later than [t] can
    be missed. *)
Theorem X2_resolve_frame_unsorted (t : Date) (fs : list Frame) :
  fs ≠ [] →
  (∃ pre f post, fs = pre ++ f :: post ∧ resolve_frame t fs = Some f ∧
      Forall (λ g, time g ≤ t) pre ∧ time f ≤ t ∧
      match post with [] => True | g :: _ => t < time g end)
  ∨ (∃ f rest, fs = f :: rest ∧ t < time f ∧ resolve_frame t fs = Some f).
Proof.
  intros Hne. unfold resolve_frame.
  destruct (scan_frames_split t fs (index fs 0))
    as [(pre & f & post & -> & Hs & Hpre & Hf & Hpost)|[Hs Hfs]].
  - left. by exists pre, f, post.
  - right. destruct fs as [|f rest]; [done|].
    exists f, rest. by rewrite Hs, index_0.
Qed.

Lemma X2_resolve_frame_unsorted_witness :
  [tie_c; tie_a; tie_b] ≠ [] ∧
  ((∃ pre f post, [tie_c; tie_a; tie_b] = pre ++ f :: post ∧
      resolve_frame 3 [tie_c; tie_a; tie_b] = Some f ∧
      Forall (λ g, time g ≤ 3) pre ∧ time f ≤ 3 ∧
      match post with [] => True | g :: _ => 3 < time g end)
   ∨ (∃ f rest, [tie_c; tie_a; tie_b] = f :: rest ∧ 3 < time f ∧
        resolve_frame 3 [tie_c; tie_a; tie_b] = Some f)).
Proof.
  assert ([tie_c; tie_a; tie_b] ≠ []) as H by discriminate.
  exact (conj H (X2_resolve_frame_unsorted 3 [tie_c; tie_a; tie_b] H)).
Defined.

Lemma scan_frames_all t fs acc :
  Forall (λ g, time g ≤ t) fs →
  scan_frames t fs acc = match last fs with Some f => Some f | None => acc end.
Proof.
  revert acc. induction fs as [|h rest IH]; intros acc Hall; simpl; [done|].
  apply Forall_cons in Hall as [Hh Hrest].
  rewrite bool_decide_true by done. rewrite IH by done.
  rewrite last_cons. by destruct (last rest).
Qed.

(** X3.  A query time not earlier than any frame resolves to the last
    frame of the array, in both versions and whatever the order of the
    frames. *)
Theorem X3_resolve_after_all (t : Date) (fs : list Frame) (ts : list Date) :
  fs ≠ [] → (∀ g, g ∈ fs → time g ≤ t) →
  ts ≠ [] → (∀ y, y ∈ ts → y ≤ t) →
  resolve_frame t fs = last fs ∧
  Part000.resolve_index t ts = Z.of_nat (length ts) - 1.
Proof.
  intros Hfs Hall Hts Hallts. split.
  - unfold resolve_frame. rewrite scan_frames_all by by apply Forall_forall.
    destruct (last fs) eqn:Hl; [done|]. by apply last_None in Hl.
  - unfold Part000.resolve_index.
    destruct (length ts) as [|n] eqn:Hn; [by destruct ts|].
    simpl. destruct (ts !! n) as [y|] eqn:Hy.
    + rewrite bool_decide_true; [lia|].
      assert (y ≤ t) by (apply Hallts; by eapply list_elem_of_lookup_2). lia.
    + apply lookup_ge_None in Hy. lia.
Qed.

Lemma X3_resolve_after_all_witness :
  resolve_frame 1200000 scenario_frames = last scenario_frames ∧
  Part000.resolve_index 1200000 scenario_timestamps
    = Z.of_nat (length scenario_timestamps) - 1.
Proof.
  apply (X3_resolve_after_all 1200000 scenario_frames scenario_timestamps).
  - discriminate.
  - intros g [i Hi]%list_elem_of_lookup_1.
    destruct i as [|[|i]]; simpl in Hi; simplify_eq; vm_compute; discriminate.
  - discriminate.
  - intros y [i Hi]%list_elem_of_lookup_1.
    destruct i as [|[|i]]; simpl in Hi; simplify_eq; vm_compute; discriminate.
Defined.

(** X4.  The downward scan of [part_000] needs no sorted input: it
    yields the greatest index whose time is not later than [t], and [0]
    when there is none, also for an empty array.  The index is therefore
    always inside a non-empty array.  As this version does not sort what
    it fetches, that index need not hold the greatest time not later
    than [t]. *)
Theorem X4_resolve_index_unsorted (t : Date) (ts : list Date) :
  ((∃ (i : nat) x, Part000.resolve_index t ts = Z.of_nat i ∧ ts !! i = Some x ∧ x ≤ t ∧
      ∀ (j : nat) y, ts !! j = Some y → y ≤ t → (j ≤ i)%nat)
   ∨ (Part000.resolve_index t ts = 0 ∧ ∀ y, y ∈ ts → t < y))
  ∧ 0 ≤ Part000.resolve_index t ts
  ∧ Part000.resolve_index t ts < Z.max 1 (Z.of_nat (length ts)).
Proof.
  unfold Part000.resolve_index.
  destruct (scan_timestamps_spec t ts (length ts))
    as [(i & x & Hr & Hi & Hx & Hle & Hmax)|[Hr Hall]]; [done| |].
  - split_and!; [|lia|lia]. left. exists i, x. split_and!; try done.
    intros j y Hj Hy. apply (Hmax j y); [by eapply lookup_lt_Some|done|done].
  - split_and!; [|lia|lia]. right. split; [done|].
    intros y [j Hj]%list_elem_of_lookup_1.
    apply (Hall j y); [by eapply lookup_lt_Some|done].
Qed.
End ResolverExtras.

(** ** Rendering a position *)

(** Tests stay folded until they are settled. *)
Global Arguments bool_decide : simpl never.

(** Settles the tests of a computation from the hypotheses. *)
Ltac decide_tests :=
  repeat first
    [ rewrite bool_decide_true by congruence
    | rewrite bool_decide_false
        by (let H := fresh in intros H; first [congruence | apply H; congruence]) ].

Ltac compute_M := follow_M; decide_tests; follow_M.

(** Runs [f i] on a world, and then once more on the world it leaves. *)
Ltac twice_M f :=
  match goal with
  | |- f ?i (exec (f ?i) ?w) = f ?i ?w =>
      let E := fresh "E" in
      eassert (f i w = _) as E by (unfold f; compute_M; reflexivity);
      unfold exec; rewrite E; unfold f; compute_M; reflexivity
  end.

Section Part000Run.
Import Part000.

Lemma set_radarOverlay_same {Meta} (x : World Meta) ov url :
  radarOverlay x = Some ov → ov_url ov = url →
  set_radarOverlay (Some (setUrl url ov)) x = x.
Proof. destruct x, ov. simpl. by intros [= ->] <-. Qed.

(** [updateFrame] of [part_000] on a point of the track, past the call
    of [getUrl]: the overlay holds the URL of the frame looked up, and
    the rest of the rendering needs the marker. *)
Lemma part000_updateFrame_run (w : Part000.State) fd p meta ov i :
  flightData w = Some fd → index (points fd) i = Some p →
  radarMeta (animationState w) = Some meta →
  radarOverlay w = Some ov → overlay_getUrl (browser w) = true →
  updateFrame i w =
    let url := radar_frame_url (currentFlightId (animationState w))
                 (frame_file (resolve_index (timestamp_iso p) (timestamps meta))) in
    let w1 := set_radarOverlay (Some (setUrl url ov))
                (with_animationState (set_currentIndex i) w) in
    match airplaneMarker w with
    | Some mk =>
        (Normal (),
         with_dom (set_timestamp_display (Some (timestamp_iso p)))
           (with_dom (set_slider_value i)
              (set_airplaneMarker
                 (Some (setStyle_fillColor (seeding_color (seeding_type p))
                          (setLatLng ((coordinates p).2, (coordinates p).1) mk)))
                 w1)))
    | None => (Throw TypeError, w1)
    end.
Proof.
  intros Hfd Hi Hmeta Hov Hget. cbv zeta.
  destruct (decide (ov_url ov
                    = radar_frame_url (currentFlightId (animationState w))
                        (frame_file (resolve_index (timestamp_iso p) (timestamps meta)))))
    as [Hu|Hu].
  - rewrite (set_radarOverlay_same (with_animationState (set_currentIndex i) w) ov) by done.
    destruct (airplaneMarker w) as [mk|] eqn:Hmk; unfold updateFrame; compute_M; reflexivity.
  - destruct (airplaneMarker w) as [mk|] eqn:Hmk; unfold updateFrame; compute_M; reflexivity.
Qed.

End Part000Run.

Section UpdateFrameExtras.
Import Script.
Implicit Types (w : State).

(** X5.  When [updateFrame] of [script.js] throws, it throws a
    [TypeError], and it completes normally exactly when there is flight
    data and either no point at the index or everything the rendering
    dereferences: radar metadata with a frame to show, the marker, and
    the overlay unless the frame to show is already the current one.  In
    every case the index has been stored as the position. *)
Theorem X5_updateFrame_completion (w : State) (i : Z) :
  ((updateFrame i w).1 = Normal () ∨ (updateFrame i w).1 = Throw TypeError) ∧
  ((updateFrame i w).1 = Normal () ↔
     ∃ fd, flightData w = Some fd ∧
       (index (points fd) i = None ∨
        ∃ p meta f,
          index (points fd) i = Some p ∧
          radarMeta (animationState w) = Some meta ∧
          resolve_frame (timestamp_iso p) (frames meta) = Some f ∧
          (currentRadarFile (animationState w) = Some (file f) ∨ is_Some (radarOverlay w)) ∧
          is_Some (airplaneMarker w))) ∧
  currentIndex (animationState (exec (updateFrame i) w)) = i.
Proof.
  split_and!; [| |apply script_updateFrame_currentIndex].
  - unfold updateFrame. run_M; auto.
  - unfold updateFrame. unfold_M.
    destruct (flightData w) as [fd|] eqn:Hfd; simpl; [|split; [done|by intros (? & ? & _)]].
    destruct (index (points fd) i) as [p|] eqn:Hi; simpl;
      [|split; [intros _; exists fd; auto|done]].
    destruct (radarMeta (animationState w)) as [meta|] eqn:Hmeta; simpl; last first.
    { split; [done|]. intros (? & ? & [?|(? & ? & ? & ? & ? & _)]); simplify_eq. }
    destruct (resolve_frame (timestamp_iso p) (frames meta)) as [f|] eqn:Hf; simpl; last first.
    { split; [done|]. intros (? & ? & [?|(? & ? & ? & ? & ? & ? & _)]); simplify_eq. }
    case_bool_decide as Hshown; simpl.
    + destruct (radarOverlay w) as [ov|] eqn:Hov; simpl; last first.
      { split; [done|].
        intros (? & ? & [?|(? & ? & ? & ? & ? & ? & [?|[? ?]] & _)]); simplify_eq. }
      destruct (airplaneMarker w) as [mk|] eqn:Hmk; simpl.
      * split; [intros _|done]. exists fd. split; [done|]. right.
        exists p, meta, f. split_and!; eauto.
      * split; [done|].
        intros (? & ? & [?|(? & ? & ? & ? & ? & ? & _ & [? ?])]); simplify_eq.
    + destruct (airplaneMarker w) as [mk|] eqn:Hmk; simpl.
      * split; [intros _|done]. exists fd. split; [done|]. right.
        exists p, meta, f. split_and!; eauto.
      * split; [done|].
        intros (? & ? & [?|(? & ? & ? & ? & ? & ? & _ & [? ?])]); simplify_eq.
Qed.

(** X6.  Rendering the same index a second time changes nothing: the
    second call completes as the first did and leaves the world the
    first left (in particular it does not set the overlay's URL again).
    Both versions, on every world. *)
Theorem X6_updateFrame_idempotent (w : State) (w0 : Part000.State) (i : Z) :
  updateFrame i (exec (updateFrame i) w) = updateFrame i w ∧
  Part000.updateFrame i (exec (Part000.updateFrame i) w0) = Part000.updateFrame i w0.
Proof.
  split.
  - destruct (flightData w) as [fd|] eqn:Hfd; [|by twice_M updateFrame].
    destruct (index (points fd) i) as [p|] eqn:Hi; [|by twice_M updateFrame].
    destruct (radarMeta (animationState w)) as [meta|] eqn:Hmeta; [|by twice_M updateFrame].
    destruct (resolve_frame (timestamp_iso p) (frames meta)) as [f|] eqn:Hf;
      [|by twice_M updateFrame].
    destruct (decide (currentRadarFile (animationState w) = Some (file f))) as [Hs|Hs],
      (radarOverlay w) as [ov|] eqn:Hov, (airplaneMarker w) as [mk|] eqn:Hmk;
      by twice_M updateFrame.
  - destruct (flightData w0) as [fd|] eqn:Hfd; [|by twice_M Part000.updateFrame].
    destruct (index (points fd) i) as [p|] eqn:Hi; [|by twice_M Part000.updateFrame].
    destruct (radarMeta (animationState w0)) as [meta|] eqn:Hmeta;
      [|by twice_M Part000.updateFrame].
    destruct (radarOverlay w0) as [ov|] eqn:Hov; [|by twice_M Part000.updateFrame].
    destruct (overlay_getUrl (browser w0)) eqn:Hget; [|by twice_M Part000.updateFrame].
    unfold exec.
    rewrite (part000_updateFrame_run w0 fd p meta ov i) by done. cbv zeta.
    destruct (airplaneMarker w0) as [mk|] eqn:Hmk.
    + erewrite part000_updateFrame_run; [|done|done|done|reflexivity|done]. reflexivity.
    + erewrite part000_updateFrame_run; [|done|done|done|reflexivity|done].
      cbv zeta. simpl (airplaneMarker _). rewrite Hmk. reflexivity.
Qed.
End UpdateFrameExtras.


(** ** Seeking and playing *)

Section PlaybackExtras.
Import Script.
Implicit Types (w : State).

(** X7.  A seek to an index of the track, on a session that has its
    marker and overlay, completes normally and shows that point: playback
    is paused, the position and the slider value are the index, the time
    label is the point's time, the marker stands at the point's
    [latitude, longitude] in the colour of its seeding type, and the
    current radar file is the file of the frame the lookup returns for
    the point's time. *)
Theorem X7_seek_shows_point (w : State) (fd : FlightData) (meta : RadarMeta)
    (i : Z) (p : Point) :
  flightData w = Some fd → index (points fd) i = Some p →
  radarMeta (animationState w) = Some meta → frames meta ≠ [] →
  is_Some (radarOverlay w) → is_Some (airplaneMarker w) →
  let w' := exec (on_slider_input updateFrame i) w in
  on_slider_input updateFrame i w = (Normal (), w') ∧
  isPlaying (animationState w') = false ∧
  currentIndex (animationState w') = i ∧
  slider_value (dom w') = i ∧
  timestamp_display (dom w') = Some (timestamp_iso p) ∧
  mk_latlng <$> airplaneMarker w' = Some ((coordinates p).2, (coordinates p).1) ∧
  mk_fillColor <$> airplaneMarker w' = Some (Some (seeding_color (seeding_type p))) ∧
  ∃ f, resolve_frame (timestamp_iso p) (frames meta) = Some f ∧
       currentRadarFile (animationState w') = Some (file f).
Proof.
  intros Hfd Hi Hmeta Hne Hov Hmk w'.
  destruct (pauseAnimation_frame w)
    as (Hfd1 & Hov1 & Hmk1 & _ & _ & _ & Hmeta1 & _ & _).
  set (w1 := exec pauseAnimation w) in *.
  assert (on_slider_input updateFrame i w = updateFrame i w1) as Hseek.
  { unfold on_slider_input, bind.
    by rewrite (surjective_pairing_completes pauseAnimation w (pauseAnimation_completes w)). }
  assert (w' = exec (updateFrame i) w1) as -> by (unfold w', exec; by rewrite Hseek).
  destruct (resolve_frame (timestamp_iso p) (frames meta)) as [f|] eqn:Hf;
    [|by apply resolve_frame_None in Hf].
  destruct (script_updateFrame_shows w1 fd meta i p f)
    as (Hfile & _ & _ & Hll & Hcol & Hsl & Hts); try congruence.
  destruct (script_updateFrame_frame w1 i) as (_ & _ & Hp & _).
  split_and!; try done.
  - rewrite Hseek. apply surjective_pairing_completes, script_updateFrame_completes.
    split_and!; [by rewrite Hfd1, Hfd|exists meta; split; congruence|congruence|congruence].
  - rewrite Hp. apply pauseAnimation_isPlaying.
  - apply script_updateFrame_currentIndex.
  - by exists f.
Qed.

Lemma X7_seek_shows_point_witness :
  let w' := exec (on_slider_input updateFrame 2) scenario_world in
  isPlaying (animationState w') = false ∧
  currentIndex (animationState w') = 2 ∧
  slider_value (dom w') = 2 ∧
  currentRadarFile (animationState w') = Some "f1.png".
Proof.
  destruct (X7_seek_shows_point scenario_world scenario_flightData scenario_meta 2
              {| coordinates := (-1203 # 10, 387 # 10)%Q; timestamp_iso := 1200000;
                 seeding_type := Some "Eject" |})
    as (_ & Hp & Hi & Hs & _ & _ & _ & f & Hf & Hfile);
    [reflexivity|reflexivity|reflexivity|discriminate|by eexists|by eexists|].
  vm_compute in Hf. injection Hf as <-.
  exact (conj Hp (conj Hi (conj Hs Hfile))).
Defined.
End PlaybackExtras.

Section TickExtras.
Context {Meta : Type} (updateFrame : Z → M Meta unit).
Context (updateFrame_currentIndex :
           ∀ i w, currentIndex (animationState (exec (updateFrame i) w)) = i).
Context (updateFrame_flightData :
           ∀ i w, flightData (exec (updateFrame i) w) = flightData w).

Lemma tick_flightData w : flightData (exec (tick updateFrame) w) = flightData w.
Proof.
  unfold tick, nonnull, exec, bind, gets, deref.
  destruct (flightData w) as [fd|] eqn:Hfd; simpl; [|done].
  rewrite <- Hfd. apply updateFrame_flightData.
Qed.

Lemma ticks_flightData k w :
  flightData (Nat.iter k (exec (tick updateFrame)) w) = flightData w.
Proof. induction k as [|k IH]; [done|]. by rewrite Nat.iter_succ, tick_flightData. Qed.

(** After [k] firings of the interval the position has advanced by [k]
    around the track. *)
Lemma ticks_position k w fd :
  flightData w = Some fd →
  0 ≤ currentIndex (animationState w) < Z.of_nat (length (points fd)) →
  currentIndex (animationState (Nat.iter k (exec (tick updateFrame)) w))
  = (currentIndex (animationState w) + Z.of_nat k) `mod` Z.of_nat (length (points fd)).
Proof.
  intros Hfd Hp. induction k as [|k IH]; rewrite ?Nat.iter_succ.
  - change (Z.of_nat 0) with 0. change (Nat.iter 0 _ w) with w.
    rewrite Z.add_0_r, Z.mod_small; [done|lia].
  - rewrite (tick_position updateFrame _ fd); [|done|by rewrite ticks_flightData].
    rewrite IH. set (n := Z.of_nat (length (points fd))) in *.
    set (p := currentIndex (animationState w)) in *.
    rewrite Nat2Z.inj_succ.
    replace (p + Z.succ (Z.of_nat k)) with ((p + Z.of_nat k) + 1) by lia.
    pose proof (Z.mod_pos_bound (p + Z.of_nat k) n ltac:(lia)) as Hb.
    rewrite <- (Zplus_mod_idemp_l (p + Z.of_nat k) 1 n).
    case_bool_decide as Hc.
    + assert ((p + Z.of_nat k) `mod` n + 1 = n) as -> by lia.
      by rewrite Z_mod_same_full.
    + rewrite (Z.mod_small (_ + 1)); lia.
Qed.

End TickExtras.

(** ** Setting up a session *)

Section SetupExtras.
Import Script.
Implicit Types (w : State).

(** [setupAnimation] either throws before it has touched anything but
    the marker, or it reaches [updateFrame(0)] on [setup_world]. *)
Lemma script_setupAnimation_cases w :
  (∃ fd first lng meta firstFrame,
      flightData w = Some fd ∧ index (points fd) 0 = Some first ∧
      start_point_0 (browser w) = Some lng ∧
      radarMeta (animationState w) = Some meta ∧
      index (frames meta) 0 = Some firstFrame ∧
      setupAnimation w = updateFrame 0 (setup_world w fd first lng meta firstFrame))
  ∨ (∃ e, (setupAnimation w).1 = Throw e ∧
          let w' := exec setupAnimation w in
          flightData w' = flightData w ∧ flightPathLayer w' = flightPathLayer w ∧
          radarOverlay w' = radarOverlay w ∧
          animationState w' = animationState w ∧ dom w' = dom w ∧ browser w' = browser w).
Proof.
  unfold setupAnimation.
  destruct (flightData w) as [fd|] eqn:Hfd;
    [|right; exists TypeError; by follow_M].
  destruct (index (points fd) 0) as [first|] eqn:Hfirst;
    [|right; exists TypeError; by follow_M].
  destruct (start_point_0 (browser w)) as [lng|] eqn:Hsp;
    [|right; exists ReferenceError; by follow_M].
  destruct (radarMeta (animationState w)) as [meta|] eqn:Hmeta;
    [|right; exists TypeError; by follow_M].
  destruct (index (frames meta) 0) as [firstFrame|] eqn:Hff;
    [|right; exists TypeError; by follow_M].
  left. exists fd, first, lng, meta, firstFrame. split_and!; try done.
  follow_M. reflexivity.
Qed.

(** With a first point and no binding of [start_point], the error is
    the [ReferenceError] of line 86. *)
Lemma script_setupAnimation_ReferenceError w fd first :
  flightData w = Some fd → index (points fd) 0 = Some first →
  start_point_0 (browser w) = None →
  (setupAnimation w).1 = Throw ReferenceError.
Proof. intros Hfd Hfirst Hsp. unfold setupAnimation. by follow_M. Qed.
End SetupExtras.

(** ** Playing on *)

Lemma script_updateFrame_flightData i : preserves flightData (Script.updateFrame i).
Proof. unfold Script.updateFrame. preserve. Qed.

Lemma part000_updateFrame_flightData i : preserves flightData (Part000.updateFrame i).
Proof. unfold Part000.updateFrame. preserve. Qed.

(** X8.  Playback goes round the track: with the position inside a
    track of length [n], after [k] firings of the interval the position
    is [(p + k) mod n], so after [n] firings it is back where it was.
    Both versions. *)
Theorem X8_ticks_go_round (w : Script.State) (w0 : Part000.State)
    (fd fd0 : FlightData) (k : nat) :
  flightData w = Some fd →
  0 ≤ currentIndex (animationState w) < Z.of_nat (length (points fd)) →
  flightData w0 = Some fd0 →
  0 ≤ currentIndex (animationState w0) < Z.of_nat (length (points fd0)) →
  currentIndex (animationState (Nat.iter k (exec (tick Script.updateFrame)) w))
    = (currentIndex (animationState w) + Z.of_nat k) `mod` Z.of_nat (length (points fd)) ∧
  currentIndex (animationState
                  (Nat.iter (length (points fd)) (exec (tick Script.updateFrame)) w))
    = currentIndex (animationState w) ∧
  currentIndex (animationState (Nat.iter k (exec (tick Part000.updateFrame)) w0))
    = (currentIndex (animationState w0) + Z.of_nat k) `mod` Z.of_nat (length (points fd0)) ∧
  currentIndex (animationState
                  (Nat.iter (length (points fd0)) (exec (tick Part000.updateFrame)) w0))
    = currentIndex (animationState w0).
Proof.
  intros Hfd Hp Hfd0 Hp0.
  assert (∀ p n, 0 ≤ p < n → (p + n) `mod` n = p) as Hround.
  { intros p n Hpn. rewrite <- Zplus_mod_idemp_r, Z_mod_same_full, Z.add_0_r.
    by apply Z.mod_small. }
  split_and!.
  - apply ticks_position; [|intros i x; apply script_updateFrame_flightData|done..].
    intros i x. apply script_updateFrame_currentIndex.
  - rewrite (ticks_position Script.updateFrame
               (λ i x, script_updateFrame_currentIndex x i)
               (λ i x, script_updateFrame_flightData i x) _ w fd) by done.
    by apply Hround.
  - apply ticks_position; [|intros i x; apply part000_updateFrame_flightData|done..].
    intros i x. apply part000_updateFrame_currentIndex.
  - rewrite (ticks_position Part000.updateFrame
               (λ i x, part000_updateFrame_currentIndex x i)
               (λ i x, part000_updateFrame_flightData i x) _ w0 fd0) by done.
    by apply Hround.
Qed.

Lemma X8_ticks_go_round_witness :
  flightData scenario_world = Some scenario_flightData ∧
  0 ≤ currentIndex (animationState scenario_world)
    < Z.of_nat (length (points scenario_flightData)) ∧
  flightData scenario_world_000 = Some scenario_flightData ∧
  0 ≤ currentIndex (animationState scenario_world_000)
    < Z.of_nat (length (points scenario_flightData)) ∧
  currentIndex (animationState (Nat.iter 5 (exec (tick Script.updateFrame)) scenario_world))
    = (1 + 5) `mod` 3 ∧
  currentIndex (animationState
                  (Nat.iter 5 (exec (tick Part000.updateFrame)) scenario_world_000))
    = (1 + 5) `mod` 3.
Proof.
  assert (flightData scenario_world = Some scenario_flightData) as H1 by reflexivity.
  assert (0 ≤ currentIndex (animationState scenario_world)
            < Z.of_nat (length (points scenario_flightData))) as H2 by (simpl; lia).
  assert (flightData scenario_world_000 = Some scenario_flightData) as H3 by reflexivity.
  assert (0 ≤ currentIndex (animationState scenario_world_000)
            < Z.of_nat (length (points scenario_flightData))) as H4 by (simpl; lia).
  destruct (X8_ticks_go_round scenario_world scenario_world_000 _ _ 5 H1 H2 H3 H4)
    as (Ha & _ & Hb & _).
  exact (conj H1 (conj H2 (conj H3 (conj H4 (conj Ha Hb))))).
Defined.



(** X10.  [resetMap] of [script.js], from any world: it completes
    normally and leaves the stopped state; it takes the three layers off
    the map but leaves the variables pointing to them; it keeps the
    radar metadata and the flight id of the session it ends; a second
    [resetMap] changes nothing. *)
Theorem X10_resetMap (w : Script.State) :
  let w' := exec Script.resetMap w in
  Script.resetMap w = (Normal (), w') ∧
  stopped w' ∧
  radarOverlay w' = removeLayer_overlay (radarOverlay w) ∧
  airplaneMarker w' = removeLayer_marker (airplaneMarker w) ∧
  flightPathLayer w' = removeLayer_path (flightPathLayer w) ∧
  radarMeta (animationState w') = radarMeta (animationState w) ∧
  currentFlightId (animationState w') = currentFlightId (animationState w) ∧
  Script.resetMap w' = (Normal (), w').
Proof.
  intros w'.
  destruct (pauseAnimation_frame w) as (_ & Hov & Hmk & Hpl & _ & _ & Hmeta & Hid & _).
  assert (Script.resetMap w = (Normal (), w')) as Hr.
  { unfold w', exec. by rewrite script_resetMap_eq. }
  split_and!; [done|apply script_resetMap_stopped|..].
  - unfold w', exec. rewrite script_resetMap_eq. simpl. by rewrite Hov.
  - unfold w', exec. rewrite script_resetMap_eq. simpl. by rewrite Hmk.
  - unfold w', exec. rewrite script_resetMap_eq. simpl. by rewrite Hpl.
  - unfold w', exec. rewrite script_resetMap_eq. simpl. by rewrite Hmeta.
  - unfold w', exec. rewrite script_resetMap_eq. simpl. by rewrite Hid.
  - apply script_resetMap_on_stopped, script_resetMap_stopped.
Qed.

(** ** Invariants of the page *)

Section Keeps.
Context {Meta : Type} (I : World Meta → Prop).

Lemma keeps_bind {A B} (m : M Meta A) (k : A → M Meta B) :
  keeps I m → (∀ a, keeps I (k a)) → keeps I (bind m k).
Proof.
  intros Hm Hk w Hw. specialize (Hm w Hw). unfold exec, bind in *.
  destruct (m w) as [[a|e] w']; simpl in *; [|done]. by apply Hk.
Qed.

Lemma keeps_try_catch {A} (m : M Meta A) (h : Error → M Meta A) :
  keeps I m → (∀ e, keeps I (h e)) → keeps I (try_catch m h).
Proof.
  intros Hm Hh w Hw. specialize (Hm w Hw). unfold exec, try_catch in *.
  destruct (m w) as [[a|e] w']; simpl in *; [done|]. by apply Hh.
Qed.

Lemma keeps_preserves {A T} (V : World Meta → T) (m : M Meta A) :
  (∀ w w', V w' = V w → I w → I w') → preserves V m → keeps I m.
Proof. intros HV Hm w Hw. by apply (HV w), Hw. Qed.
End Keeps.

Lemma button_reflects_view {Meta} (w w' : World Meta) :
  button_view w' = button_view w → button_reflects w → button_reflects w'.
Proof. unfold button_view, button_reflects. intros [= -> -> ->]. done. Qed.

Lemma overlay_shows_current_view (w w' : Script.State) :
  overlay_view w' = overlay_view w → overlay_shows_current w → overlay_shows_current w'.
Proof. unfold overlay_view, overlay_shows_current. intros [= -> -> ->]. done. Qed.

Section ButtonInvariant.
Import Script.
Implicit Types (w : State).

Lemma pauseAnimation_button {Meta} : keeps (Meta:=Meta) button_reflects pauseAnimation.
Proof.
  intros x Hx. unfold button_reflects, pauseAnimation, clearInterval in *.
  unfold exec, bind, gets, modify, ret.
  destruct (isPlaying (animationState x)) eqn:Hp; simpl; [|by rewrite Hp].
  by destruct (timer (animationState x)).
Qed.

Lemma playAnimation_button {Meta} : keeps (Meta:=Meta) button_reflects playAnimation.
Proof.
  intros x Hx. unfold button_reflects, playAnimation, setInterval in *.
  unfold exec, bind, gets, modify, ret.
  destruct (isPlaying (animationState x)) eqn:Hp; simpl; [by rewrite Hp|done].
Qed.

Lemma script_updateFrame_button i : preserves button_view (updateFrame i).
Proof. unfold updateFrame. preserve. Qed.

Lemma script_resetMap_button : keeps button_reflects resetMap.
Proof.
  unfold resetMap. apply keeps_bind; [apply pauseAnimation_button|intros _].
  apply (keeps_preserves _ button_view); [apply button_reflects_view|]. preserve.
Qed.

Lemma script_dispatch_button e : keeps button_reflects (dispatch e).
Proof.
  destruct e as [value|geojson|meta| |value|handle]; simpl.
  - unfold on_flight_select. case_bool_decide; [|apply script_resetMap_button].
    unfold loadFlight_enter. apply keeps_bind; [apply script_resetMap_button|intros _].
    apply (keeps_preserves _ button_view); [apply button_reflects_view|]. preserve.
  - apply (keeps_preserves _ button_view); [apply button_reflects_view|].
    unfold loadFlight_flight, loadFlight_catch, console_error, alert. preserve.
  - apply (keeps_preserves _ button_view); [apply button_reflects_view|].
    unfold loadFlight_radar, loadFlight_catch, console_error, alert, drawFlightPath,
      setupAnimation.
    preserve. apply script_updateFrame_button.
  - unfold on_play_pause_click. intros w Hw. unfold exec, bind, gets.
    destruct (isPlaying (animationState w));
      [by apply pauseAnimation_button|by apply playAnimation_button].
  - unfold on_slider_input. apply keeps_bind; [apply pauseAnimation_button|intros _].
    apply (keeps_preserves _ button_view); [apply button_reflects_view|].
    apply script_updateFrame_button.
  - apply (keeps_preserves _ button_view); [apply button_reflects_view|].
    unfold tick. preserve. apply script_updateFrame_button.
Qed.

(** X11.  The play/pause button always tells the state of the playback.
    On a page served with the button reading "Play" and without the
    class ['playing'], after any sequence of events the button has the
    class exactly when [isPlaying] is set, and reads "Pause" then and
    "Play" otherwise. *)
Theorem X11_button_reflects_playing (page : Dom) (sp : option Q) (g : bool)
    (events : list Event) :
  btn_playing page = false → btn_textContent page = "Play" →
  button_reflects (run events (initial page sp g)).
Proof.
  intros Hclass Htext.
  assert (button_reflects (initial (Meta:=RadarMeta) page sp g)) as Hinit by done.
  revert Hinit. generalize (initial (Meta:=RadarMeta) page sp g).
  induction events as [|e events IH]; intros w Hw; simpl; [done|].
  apply IH. by apply script_dispatch_button.
Qed.

Lemma X11_button_reflects_playing_witness :
  btn_playing served_page = false ∧ btn_textContent served_page = "Play" ∧
  button_reflects
    (run [FlightSelect "flight1"; FlightSettled (Resolved scenario_features);
          RadarSettled (Resolved scenario_meta); PlayPauseClick; IntervalFire 1;
          SliderInput 2]
       (initial served_page (Some (-1205 # 10)%Q) false)).
Proof.
  assert (btn_playing served_page = false) as H1 by reflexivity.
  assert (btn_textContent served_page = "Play") as H2 by reflexivity.
  exact (conj H1 (conj H2 (X11_button_reflects_playing served_page _ _ _ H1 H2))).
Defined.
End ButtonInvariant.

Section OverlayInvariant.
Import Script.
Implicit Types (w : State).

Lemma script_updateFrame_overlay i : keeps overlay_shows_current (updateFrame i).
Proof.
  intros w Hw. unfold overlay_shows_current in *.
  destruct (flightData w) as [fd|] eqn:Hfd; last first.
  { eassert (updateFrame i w = _) as E by (unfold updateFrame; compute_M; reflexivity).
    unfold exec. rewrite E. exact Hw. }
  destruct (index (points fd) i) as [p|] eqn:Hi; last first.
  { eassert (updateFrame i w = _) as E by (unfold updateFrame; compute_M; reflexivity).
    unfold exec. rewrite E. exact Hw. }
  destruct (radarMeta (animationState w)) as [meta|] eqn:Hmeta; last first.
  { eassert (updateFrame i w = _) as E by (unfold updateFrame; compute_M; reflexivity).
    unfold exec. rewrite E. exact Hw. }
  destruct (resolve_frame (timestamp_iso p) (frames meta)) as [f|] eqn:Hf; last first.
  { eassert (updateFrame i w = _) as E by (unfold updateFrame; compute_M; reflexivity).
    unfold exec. rewrite E. exact Hw. }
  destruct (decide (currentRadarFile (animationState w) = Some (file f))) as [Hs|Hs],
    (radarOverlay w) as [ov|] eqn:Hov, (airplaneMarker w) as [mk|] eqn:Hmk.
  all: eassert (updateFrame i w = _) as E by (unfold updateFrame; compute_M; reflexivity).
  all: unfold exec; rewrite E; simpl; rewrite ?Hov; simpl.
  all: try exact Hw.
  all: try (intros f' [= <-]; reflexivity).
  all: intros f' Hf'; specialize (Hw f' Hf'); by rewrite Hov in Hw.
Qed.

Lemma script_setupAnimation_overlay : keeps overlay_shows_current setupAnimation.
Proof.
  intros w Hw.
  destruct (script_setupAnimation_cases w)
    as [(fd & first & lng & meta & ff & _ & _ & _ & _ & _ & Hrun)
       |(e & _ & _ & _ & Hov & Ha & _)].
  - unfold exec. rewrite Hrun. apply script_updateFrame_overlay.
    intros f. unfold setup_world. simpl. by intros [= <-].
  - apply (overlay_shows_current_view w); [|done].
    unfold overlay_view. by rewrite Hov, Ha.
Qed.

Lemma script_resetMap_overlay w : overlay_shows_current (exec resetMap w).
Proof.
  intros f. destruct (script_resetMap_stopped w) as (_ & _ & _ & Hf & _).
  by rewrite Hf.
Qed.

Lemma script_dispatch_overlay e : keeps overlay_shows_current (dispatch e).
Proof.
  destruct e as [value|geojson|meta| |value|handle]; simpl.
  - intros w _. unfold on_flight_select. case_bool_decide; [|apply script_resetMap_overlay].
    unfold exec. rewrite script_loadFlight_enter_eq. simpl.
    intros f. simpl. destruct (script_resetMap_stopped w) as (_ & _ & _ & Hf & _).
    by rewrite Hf.
  - apply (keeps_preserves _ overlay_view); [apply overlay_shows_current_view|].
    unfold loadFlight_flight, loadFlight_catch, console_error, alert. preserve.
  - apply keeps_try_catch.
    + unfold loadFlight_radar.
      apply keeps_bind;
        [apply (keeps_preserves _ overlay_view);
           [apply overlay_shows_current_view|preserve]|intros m].
      apply keeps_bind;
        [apply (keeps_preserves _ overlay_view);
           [apply overlay_shows_current_view|preserve]|intros _].
      apply keeps_bind;
        [apply (keeps_preserves _ overlay_view);
           [apply overlay_shows_current_view|preserve]|intros _].
      apply keeps_bind;
        [apply (keeps_preserves _ overlay_view);
           [apply overlay_shows_current_view|unfold drawFlightPath; preserve]|intros _].
      apply keeps_bind; [apply script_setupAnimation_overlay|intros _].
      apply (keeps_preserves _ overlay_view); [apply overlay_shows_current_view|preserve].
    + intros e. apply (keeps_preserves _ overlay_view); [apply overlay_shows_current_view|].
      unfold loadFlight_catch, console_error, alert. preserve.
  - apply (keeps_preserves _ overlay_view); [apply overlay_shows_current_view|].
    unfold on_play_pause_click, pauseAnimation, playAnimation, setInterval, clearInterval.
    preserve.
  - unfold on_slider_input. apply keeps_bind; [|intros _; apply script_updateFrame_overlay].
    apply (keeps_preserves _ overlay_view); [apply overlay_shows_current_view|].
    unfold pauseAnimation, clearInterval. preserve.
  - apply keeps_bind;
      [apply (keeps_preserves _ overlay_view);
         [apply overlay_shows_current_view|preserve]|intros active].
    destruct active; [|by intros w Hw].
    unfold tick. apply keeps_bind;
      [apply (keeps_preserves _ overlay_view);
         [apply overlay_shows_current_view|preserve]|intros j].
    apply keeps_bind;
      [apply (keeps_preserves _ overlay_view);
         [apply overlay_shows_current_view|preserve]|intros fd].
    apply script_updateFrame_overlay.
Qed.

(** X12.  The suppression of redundant overlay updates never leaves a
    stale image.  After any sequence of events from the initial state,
    whenever [currentRadarFile] holds a file the overlay exists and its
    URL is the URL of that file under the current flight id; so skipping
    [setUrl] when the file to show equals [currentRadarFile] shows the
    right image. *)
Theorem X12_overlay_shows_current (page : Dom) (sp : option Q) (g : bool)
    (events : list Event) :
  overlay_shows_current (run events (initial page sp g)).
Proof.
  assert (overlay_shows_current (initial (Meta:=RadarMeta) page sp g)) as Hinit by done.
  revert Hinit. generalize (initial (Meta:=RadarMeta) page sp g).
  induction events as [|e events IH]; intros w Hw; simpl; [done|].
  apply IH. by apply script_dispatch_overlay.
Qed.

(** X13.  While paused nothing advances on its own.  In any state
    reached from the initial one in which [isPlaying] is off, no interval
    is active, so interval firings that are still delivered for old
    handles leave the world exactly as it is. *)
Theorem X13_paused_stays (page : Dom) (sp : option Q) (g : bool)
    (events : list Event) (handles : list Z) :
  let w := run events (initial page sp g) in
  isPlaying (animationState w) = false →
  run (IntervalFire <$> handles) w = w.
Proof.
  intros w Hp.
  assert (intervals (browser w) = ∅) as Hi.
  { pose proof (script_run_consistent events (initial page sp g) eq_refl) as Hc.
    unfold timers_consistent in Hc. fold w in Hc. by rewrite Hp in Hc. }
  induction handles as [|h handles IH]; simpl; [done|].
  replace (exec _ w) with w; [done|].
  unfold exec, bind, gets. rewrite Hi. by rewrite bool_decide_false by set_solver.
Qed.

Lemma X13_paused_stays_witness :
  let w := run [FlightSelect "flight1"; FlightSettled (Resolved scenario_features);
                RadarSettled (Resolved scenario_meta); PlayPauseClick; IntervalFire 1;
                SliderInput 2]
             (initial served_page (Some (-1205 # 10)%Q) false) in
  isPlaying (animationState w) = false ∧
  run (IntervalFire <$> [1; 2; 1]) w = w.
Proof.
  intros w.
  assert (isPlaying (animationState w) = false) as H by (vm_compute; reflexivity).
  exact (conj H (X13_paused_stays served_page _ _ _ [1; 2; 1] H)).
Defined.
End OverlayInvariant.

(** ** Loading a flight: the ways it can end *)

Section LoadExtras.
Import Script.
Implicit Types (w : State).

Lemma script_resetMap_browser w :
  alerts (browser (exec resetMap w)) = alerts (browser w) ∧
  console_errors (browser (exec resetMap w)) = console_errors (browser w) ∧
  start_point_0 (browser (exec resetMap w)) = start_point_0 (browser w) ∧
  overlay_getUrl (browser (exec resetMap w)) = overlay_getUrl (browser w).
Proof.
  unfold exec at 1 2 3 4. rewrite script_resetMap_eq. simpl.
  by destruct (pauseAnimation_frame w)
    as (_ & _ & _ & _ & _ & _ & _ & _ & _ & _ & _ & _ & _ & _ & -> & -> & -> & ->).
Qed.

Lemma script_resetMap_keeps w :
  radarMeta (animationState (exec resetMap w)) = radarMeta (animationState w) ∧
  flightPathLayer (exec resetMap w) = removeLayer_path (flightPathLayer w) ∧
  airplaneMarker (exec resetMap w) = removeLayer_marker (airplaneMarker w) ∧
  radarOverlay (exec resetMap w) = removeLayer_overlay (radarOverlay w).
Proof.
  unfold exec at 1 2 3 4. rewrite script_resetMap_eq. simpl.
  by destruct (pauseAnimation_frame w) as (_ & -> & -> & -> & _ & _ & -> & _).
Qed.

(** X14.  A load whose fetch is rejected.  If the flight data cannot be
    fetched, [loadFlight] reports the error and leaves the stopped state
    with the new flight id; the second fetch is never awaited.  If the
    radar metadata cannot be fetched, it reports the error with the
    controls hidden and nothing drawn, but the track of the new flight
    is stored, next to whatever radar metadata was there before. *)
Theorem X14_load_fetch_rejected (w : State) (id : string) (e e' : Error)
    (features : list Feature) (meta : Settled RadarMeta) :
  (let w1 := exec (loadFlight id (Rejected e) meta) w in
   loadFlight id (Rejected e) meta w = (Normal (), w1) ∧
   stopped w1 ∧
   currentFlightId (animationState w1) = Some id ∧
   radarMeta (animationState w1) = radarMeta (animationState w) ∧
   alerts (browser w1) = alerts (browser w) ++ [load_failed_message] ∧
   console_errors (browser w1) = console_errors (browser w) ++ [e])
  ∧
  (let w2 := exec (loadFlight id (Resolved features) (Rejected e')) w in
   loadFlight id (Resolved features) (Rejected e') w = (Normal (), w2) ∧
   flightData w2
     = Some {| path := find_LineString features; points := filter_Point features |} ∧
   radarMeta (animationState w2) = radarMeta (animationState w) ∧
   currentFlightId (animationState w2) = Some id ∧
   flightPathLayer w2 = removeLayer_path (flightPathLayer w) ∧
   isPlaying (animationState w2) = false ∧
   currentIndex (animationState w2) = 0 ∧
   controls_hidden (dom w2) = true ∧
   slider_disabled (dom w2) = true ∧
   alerts (browser w2) = alerts (browser w) ++ [load_failed_message] ∧
   console_errors (browser w2) = console_errors (browser w) ++ [e']).
Proof.
  destruct (script_resetMap_stopped w) as (Hp & Hfd & Hi & Hf & Hpl & Hmk & Hov & Hc & Hs).
  destruct (script_resetMap_browser w) as (Hal & Hce & _).
  destruct (script_resetMap_keeps w) as (Hmeta & Hpath & _).
  split.
  - assert (loadFlight id (Rejected e) meta w
            = (Normal (),
               exec (loadFlight_catch e)
                 (with_animationState (set_currentFlightId (Some id)) (exec resetMap w))))
      as Hl.
    { unfold loadFlight. unfold bind at 1. by rewrite script_loadFlight_enter_eq. }
    cbv zeta. unfold exec at 1 2 3 4 5 6. rewrite Hl. split; [done|].
    unfold stopped. simpl. rewrite Hal, Hce. split_and!; done.
  - assert (loadFlight id (Resolved features) (Rejected e') w
            = (Normal (),
               exec (loadFlight_catch e')
                 (set_flightData
                    (Some {| path := find_LineString features;
                             points := filter_Point features |})
                    (with_animationState (set_currentFlightId (Some id))
                       (exec resetMap w))))) as Hl.
    { unfold loadFlight. unfold bind at 1. by rewrite script_loadFlight_enter_eq. }
    cbv zeta. unfold exec at 1 2 3 4 5 6 7 8 9 10 11. rewrite Hl. split; [done|].
    simpl. rewrite Hal, Hce. split_and!; done.
Qed.

(** [setupAnimation] with everything it dereferences in place. *)
Lemma script_setupAnimation_run w fd first lng meta firstFrame :
  flightData w = Some fd → index (points fd) 0 = Some first →
  start_point_0 (browser w) = Some lng →
  radarMeta (animationState w) = Some meta →
  index (frames meta) 0 = Some firstFrame →
  setupAnimation w = updateFrame 0 (setup_world w fd first lng meta firstFrame).
Proof. intros. unfold setupAnimation. follow_M. reflexivity. Qed.

Lemma sort_frames_nonempty l : l ≠ [] → Js.sort by_time l ≠ [].
Proof.
  intros Hl Hs. pose proof (sort_frames_Permutation l) as Hp.
  rewrite Hs in Hp. by apply Permutation_nil_l in Hp.
Qed.
End LoadExtras.

Section LoadSuccess.
Import Script.
Implicit Types (w : State).

(** X15.  A load of [script.js] that succeeds.  On a page that binds
    [start_point], with at least one point in the fetched track and one
    frame in the fetched radar sequence, [loadFlight] completes without
    an alert and leaves a paused session at position 0: controls shown,
    slider enabled over [0, n-1] at 0, time label at the first point's
    time, marker on the map at the first point's [latitude, longitude]
    (the longitude read from [start_point] is overwritten by
    [updateFrame(0)]) in the colour of its seeding type, and the overlay
    on the map showing the frame that the lookup returns, on the sorted
    frames, for the first point's time. *)
Theorem X15_load_succeeds (w : State) (id : string) (features : list Feature)
    (meta : RadarMeta) (first : Point) (rest : list Point) (lng : Q) :
  filter_Point features = first :: rest →
  frames meta ≠ [] →
  start_point_0 (browser w) = Some lng →
  let w' := exec (loadFlight id (Resolved features) (Resolved meta)) w in
  loadFlight id (Resolved features) (Resolved meta) w = (Normal (), w') ∧
  alerts (browser w') = alerts (browser w) ∧
  session_ready w' ∧
  isPlaying (animationState w') = false ∧
  currentIndex (animationState w') = 0 ∧
  controls_hidden (dom w') = false ∧
  slider_disabled (dom w') = false ∧
  slider_max (dom w') = Z.of_nat (length (first :: rest)) - 1 ∧
  slider_value (dom w') = 0 ∧
  timestamp_display (dom w') = Some (timestamp_iso first) ∧
  airplaneMarker w'
    = Some {| mk_latlng := ((coordinates first).2, (coordinates first).1);
              mk_fillColor := Some (seeding_color (seeding_type first));
              mk_onMap := true |} ∧
  ∃ f, resolve_frame (timestamp_iso first) (Js.sort by_time (frames meta)) = Some f ∧
       currentRadarFile (animationState w') = Some (file f) ∧
       radarOverlay w'
         = Some {| ov_url := radar_frame_url (Some id) (file f);
                   ov_bounds := bounds meta; ov_onMap := true |}.
Proof.
  intros Hpts Hfr Hsp w'.
  destruct (script_resetMap_stopped w) as (Hp & _ & _ & _ & _ & _ & _ & _ & _).
  destruct (script_resetMap_browser w) as (Hal & _ & Hsp' & _).
  set (fd := {| path := find_LineString features; points := filter_Point features |}).
  set (w3 := with_animationState (set_radarMeta (Some (sort_frames meta)))
               (set_flightData (Some fd)
                  (with_animationState (set_currentFlightId (Some id)) (exec resetMap w)))).
  destruct (drawFlightPath_eq w3 fd eq_refl) as (w4 & Hd & Hfd4 & _ & _ & Ha4 & Hd4 & Hb4).
  destruct (Js.sort by_time (frames meta)) as [|ff sorted] eqn:Hsorted;
    [by apply sort_frames_nonempty in Hsorted|].
  destruct (resolve_frame (timestamp_iso first) (ff :: sorted)) as [f|] eqn:Hf;
    [|by apply resolve_frame_None in Hf].
  assert (index (points fd) 0 = Some first) as Hfirst by (by rewrite index_0; simpl; rewrite Hpts).
  assert (index (frames (sort_frames meta)) 0 = Some ff) as Hff
    by (by rewrite index_0; simpl; rewrite Hsorted).
  assert (start_point_0 (browser w4) = Some lng) as Hsp4 by (by rewrite Hb4; simpl; rewrite Hsp').
  assert (radarMeta (animationState w4) = Some (sort_frames meta)) as Hm4 by (by rewrite Ha4).
  assert (flightData w4 = Some fd) as Hfd4' by (by rewrite Hfd4).
  pose proof (script_setupAnimation_run w4 fd first lng (sort_frames meta) ff
                Hfd4' Hfirst Hsp4 Hm4 Hff) as Hsetup.
  assert (currentFlightId (animationState w4) = Some id) as Hid4 by (by rewrite Ha4).
  assert (resolve_frame (timestamp_iso first) (frames (sort_frames meta)) = Some f) as Hf'
    by (simpl; by rewrite Hsorted).
  assert (∃ wf, updateFrame 0 (setup_world w4 fd first lng (sort_frames meta) ff)
                = (Normal (), wf) ∧
            flightData wf = Some fd ∧ animationState wf
              = set_currentRadarFile (Some (file f)) (set_currentIndex 0 (animationState w4)) ∧
            airplaneMarker wf
              = Some {| mk_latlng := ((coordinates first).2, (coordinates first).1);
                        mk_fillColor := Some (seeding_color (seeding_type first));
                        mk_onMap := true |} ∧
            radarOverlay wf
              = Some {| ov_url := radar_frame_url (Some id) (file f);
                        ov_bounds := bounds meta; ov_onMap := true |} ∧
            dom wf = set_timestamp_display (Some (timestamp_iso first))
                       (set_slider_value 0
                          (set_slider_disabled false
                             (set_slider_value 0
                                (set_slider_max (Z.of_nat (length (points fd)) - 1)
                                   (dom w4))))) ∧
            browser wf = browser w4) as (wf & Hu & Hfdf & Haf & Hmkf & Hovf & Hdf & Hbf).
  { destruct (decide (file ff = file f)) as [Heq|Hne].
    - eexists. split.
      + unfold updateFrame, setup_world. compute_M. reflexivity.
      + simpl. rewrite Hid4, Heq. split_and!; try done.
    - eexists. split.
      + unfold updateFrame, setup_world. compute_M. reflexivity.
      + simpl. rewrite Hid4. split_and!; try done. }
  assert (loadFlight id (Resolved features) (Resolved meta) w
          = (Normal (), with_dom (set_controls_hidden false) wf)) as Hl.
  { rewrite script_loadFlight_resolved. fold fd. fold w3.
    unfold try_catch, bind. rewrite Hd, Hsetup, Hu. reflexivity. }
  unfold w', exec. rewrite Hl. unfold session_ready. simpl.
  rewrite Hfdf, Haf, Hmkf, Hovf, Hdf, Hbf, Hb4, Ha4, Hd4. simpl. rewrite Hal, Hp, Hpts.
  split_and!; try done; try (by eexists).
  exists (sort_frames meta). split; [done|]. simpl. by rewrite Hsorted.
Qed.

Lemma X15_load_succeeds_witness :
  let w' := exec (loadFlight "flight1" (Resolved scenario_features) (Resolved scenario_meta))
              (initial served_page (Some (-1205 # 10)%Q) false) in
  session_ready w' ∧ controls_hidden (dom w') = false ∧
  slider_max (dom w') = 2 ∧
  currentRadarFile (animationState w') = Some "f0.png".
Proof.
  destruct (X15_load_succeeds (initial served_page (Some (-1205 # 10)%Q) false) "flight1"
              scenario_features scenario_meta
              {| coordinates := (-1205 # 10, 385 # 10)%Q; timestamp_iso := 0;
                 seeding_type := None |}
              (tail scenario_points) (-1205 # 10)%Q)
    as (_ & _ & Hr & _ & _ & Hc & _ & Hm & _ & _ & _ & f & Hf & Hfile & _);
    [reflexivity|discriminate|reflexivity|].
  vm_compute in Hf. injection Hf as <-.
  exact (conj Hr (conj Hc (conj Hm Hfile))).
Defined.

(** X16.  On a page that does not bind [start_point], no load of
    [script.js] succeeds: whatever the two fetches resolve to,
    [setupAnimation] throws, the [catch] raises the alert, the controls
    stay hidden and the slider disabled, and no marker or overlay is put
    on the map.  With a point in the track the error is the
    [ReferenceError] of line 86. *)
Theorem X16_load_without_start_point (w : State) (id : string)
    (features : list Feature) (meta : RadarMeta) :
  start_point_0 (browser w) = None →
  let w' := exec (loadFlight id (Resolved features) (Resolved meta)) w in
  loadFlight id (Resolved features) (Resolved meta) w = (Normal (), w') ∧
  alerts (browser w') = alerts (browser w) ++ [load_failed_message] ∧
  (∃ e, console_errors (browser w') = console_errors (browser w) ++ [e] ∧
        (filter_Point features ≠ [] → e = ReferenceError)) ∧
  controls_hidden (dom w') = true ∧
  slider_disabled (dom w') = true ∧
  isPlaying (animationState w') = false ∧
  airplaneMarker w' = removeLayer_marker (airplaneMarker w) ∧
  radarOverlay w' = removeLayer_overlay (radarOverlay w).
Proof.
  intros Hsp w'.
  destruct (script_resetMap_stopped w) as (Hp & _ & _ & _ & _ & _ & _ & Hc & Hs).
  destruct (script_resetMap_browser w) as (Hal & Hce & Hsp' & _).
  destruct (script_resetMap_keeps w) as (_ & _ & Hmk & Hov).
  set (fd := {| path := find_LineString features; points := filter_Point features |}).
  set (w3 := with_animationState (set_radarMeta (Some (sort_frames meta)))
               (set_flightData (Some fd)
                  (with_animationState (set_currentFlightId (Some id)) (exec resetMap w)))).
  destruct (drawFlightPath_eq w3 fd eq_refl)
    as (w4 & Hd & Hfd4 & Hov4 & Hmk4 & Ha4 & Hd4 & Hb4).
  assert (start_point_0 (browser w4) = None) as Hsp4
    by (rewrite Hb4; simpl; by rewrite Hsp').
  assert (∃ e, setupAnimation w4 = (Throw e, w4) ∧
               (filter_Point features ≠ [] → e = ReferenceError)) as (e & Hsetup & He).
  { assert (flightData w4 = Some fd) as Hfd4' by (by rewrite Hfd4).
    unfold setupAnimation.
    destruct (index (points fd) 0) as [first|] eqn:Hfirst.
    - exists ReferenceError. split; [|done]. by follow_M.
    - exists TypeError. split; [by follow_M|].
      rewrite index_0 in Hfirst. simpl in Hfirst. by destruct (filter_Point features). }
  assert (loadFlight id (Resolved features) (Resolved meta) w
          = (Normal (), exec (loadFlight_catch e) w4)) as Hl.
  { rewrite script_loadFlight_resolved. fold fd. fold w3.
    unfold try_catch, bind. rewrite Hd, Hsetup. reflexivity. }
  unfold w'. unfold exec at 1 2 3 4 5 6 7 8. rewrite Hl. split; [done|].
  unfold loadFlight_catch, console_error, alert, exec, bind, modify. simpl.
  rewrite Hb4, Hd4, Ha4, Hmk4, Hov4. simpl. rewrite Hal, Hce, Hmk, Hov.
  split_and!; try done. by exists e.
Qed.

Lemma X16_load_without_start_point_witness :
  let w := initial served_page None false in
  let w' := exec (loadFlight "flight1" (Resolved scenario_features) (Resolved scenario_meta))
              w in
  start_point_0 (browser w) = None ∧
  alerts (browser w') = alerts (browser w) ++ [load_failed_message] ∧
  controls_hidden (dom w') = true.
Proof.
  intros w w'.
  assert (start_point_0 (browser w) = None) as H by reflexivity.
  destruct (X16_load_without_start_point w "flight1" scenario_features scenario_meta H)
    as (_ & Ha & _ & Hc & _).
  exact (conj H (conj Ha Hc)).
Defined.
End LoadSuccess.

Section Part000Load.
Import Part000.
Implicit Types (w : State).

Lemma part000_resetMap_eq w :
  resetMap w =
  (Normal (),
   let w1 := exec pauseAnimation w in
   {| flightData := None;
      radarOverlay := removeLayer_overlay (radarOverlay w1);
      airplaneMarker := removeLayer_marker (airplaneMarker w1);
      flightPathLayer := removeLayer_path (flightPathLayer w1);
      animationState := set_currentIndex 0 (animationState w1);
      dom := set_slider_disabled true (set_controls_hidden true (dom w1));
      browser := browser w1 |}).
Proof.
  unfold resetMap. unfold exec, bind at 1.
  pose proof (pauseAnimation_completes w) as Hc.
  destruct (pauseAnimation w) as [[[]|e] w1]; simpl in *; [|done].
  reflexivity.
Qed.

Lemma part000_loadFlight_resolved id features meta w :
  loadFlight id (Resolved features) (Resolved meta) w =
  try_catch
    (drawFlightPath;; setupAnimation;; modify (with_dom (set_controls_hidden false)))
    loadFlight_catch
    (with_animationState (set_radarMeta (Some meta))
       (set_flightData
          (Some {| path := find_LineString features; points := filter_Point features |})
          (with_animationState (set_currentFlightId (Some id)) (exec resetMap w)))).
Proof.
  unfold loadFlight, loadFlight_enter. unfold bind at 1 2. unfold exec.
  rewrite part000_resetMap_eq. reflexivity.
Qed.

Lemma part000_resetMap_facts w :
  isPlaying (animationState (exec resetMap w)) = false ∧
  currentIndex (animationState (exec resetMap w)) = 0 ∧
  alerts (browser (exec resetMap w)) = alerts (browser w) ∧
  overlay_getUrl (browser (exec resetMap w)) = overlay_getUrl (browser w).
Proof.
  unfold exec at 1 2 3 4. rewrite part000_resetMap_eq. simpl.
  destruct (pauseAnimation_frame w)
    as (_ & _ & _ & _ & _ & _ & _ & _ & _ & _ & _ & _ & _ & _ & -> & _ & _ & ->).
  by rewrite pauseAnimation_isPlaying.
Qed.

(** X17.  A load of [part_000].  With at least one point in the fetched
    track, on a page whose overlays answer [getUrl], [loadFlight]
    completes without an alert and leaves a paused session at position
    0 with the controls shown.  The radar times are stored as fetched,
    unsorted, and nothing is required of them: the overlay shows the
    image numbered by the downward scan for the first point's time,
    which for an empty array of times is [frame_0.png]. *)
Theorem X17_part000_load (w : State) (id : string) (features : list Feature)
    (meta : RadarMeta) (first : Point) (rest : list Point) :
  filter_Point features = first :: rest →
  overlay_getUrl (browser w) = true →
  let w' := exec (loadFlight id (Resolved features) (Resolved meta)) w in
  loadFlight id (Resolved features) (Resolved meta) w = (Normal (), w') ∧
  alerts (browser w') = alerts (browser w) ∧
  session_ready_000 w' ∧
  isPlaying (animationState w') = false ∧
  currentIndex (animationState w') = 0 ∧
  controls_hidden (dom w') = false ∧
  slider_disabled (dom w') = false ∧
  slider_max (dom w') = Z.of_nat (length (first :: rest)) - 1 ∧
  slider_value (dom w') = 0 ∧
  radarMeta (animationState w') = Some meta ∧
  airplaneMarker w'
    = Some {| mk_latlng := ((coordinates first).2, (coordinates first).1);
              mk_fillColor := Some (seeding_color (seeding_type first));
              mk_onMap := true |} ∧
  radarOverlay w'
    = Some {| ov_url := radar_frame_url (Some id)
                          (frame_file (resolve_index (timestamp_iso first) (timestamps meta)));
              ov_bounds := bounds meta; ov_onMap := true |} ∧
  frame_file (resolve_index (timestamp_iso first) []) = "frame_0.png".
Proof.
  intros Hpts Hget w'.
  assert (loadFlight id (Resolved features) (Resolved meta) w
          = try_catch
              (drawFlightPath;; setupAnimation;;
               modify (with_dom (set_controls_hidden false)))
              loadFlight_catch
              (with_animationState (set_radarMeta (Some meta))
                 (set_flightData
                    (Some {| path := find_LineString features;
                             points := filter_Point features |})
                    (with_animationState (set_currentFlightId (Some id))
                       (exec resetMap w))))) as Hl0
    by apply part000_loadFlight_resolved.
  destruct (part000_resetMap_facts w) as (Hp & Hi & Hal & Hget').
  rewrite Hget in Hget'.
  unfold w', exec at 1 2 3 4 5 6 7 8 9 10 11 12. rewrite Hl0. clear Hl0 w'.
  generalize dependent (exec resetMap w). intros r Hp Hi Hal Hget'.
  set (fd := {| path := find_LineString features; points := filter_Point features |}).
  set (w3 := with_animationState (set_radarMeta (Some meta))
               (set_flightData (Some fd)
                  (with_animationState (set_currentFlightId (Some id)) r))).
  destruct (drawFlightPath_eq w3 fd eq_refl) as (w4 & Hd & Hfd4 & _ & _ & Ha4 & Hd4 & Hb4).
  assert (flightData w4 = Some fd) as Hfd4' by (by rewrite Hfd4).
  assert (index (points fd) 0 = Some first) as Hfirst
    by (by rewrite index_0; simpl; rewrite Hpts).
  assert (radarMeta (animationState w4) = Some meta) as Hm4 by (by rewrite Ha4).
  assert (currentFlightId (animationState w4) = Some id) as Hid4 by (by rewrite Ha4).
  set (ws := with_dom (set_slider_disabled false)
               (with_dom (set_slider_value 0)
                  (with_dom (set_slider_max (Z.of_nat (length (points fd)) - 1))
                     (set_radarOverlay
                        (Some {| ov_url := radar_frame_url (Some id) "frame_0.png";
                                 ov_bounds := bounds meta; ov_onMap := true |})
                        (set_airplaneMarker
                           (Some {| mk_latlng := ((coordinates first).2, (coordinates first).1);
                                    mk_fillColor := None; mk_onMap := true |})
                           w4))))).
  assert (setupAnimation w4 = updateFrame 0 ws) as Hsetup.
  { clear Hp Hi Hal Hget'. unfold setupAnimation. follow_M. by rewrite Hid4. }
  assert (overlay_getUrl (browser ws) = true) as Hgets.
  { unfold ws. simpl. by rewrite Hb4. }
  pose proof (part000_updateFrame_run ws fd first meta _ 0 Hfd4' Hfirst Hm4 eq_refl Hgets)
    as Hu.
  cbv zeta in Hu. simpl (airplaneMarker ws) in Hu. cbv iota in Hu.
  unfold try_catch, bind. rewrite Hd, Hsetup, Hu.
  unfold session_ready_000, ws. simpl.
  rewrite Hfd4', Hid4, Hm4, Hb4, Ha4. simpl. rewrite Hal, Hp, Hpts, Hget'.
  split_and!; try done; try (by eexists).
Qed.

Lemma X17_part000_load_witness :
  let w := initial served_page None true in
  let w' := exec (loadFlight "flight1" (Resolved scenario_features)
                    (Resolved {| timestamps := []; bounds := scenario_bounds |})) w in
  overlay_getUrl (browser w) = true ∧
  session_ready_000 w' ∧ controls_hidden (dom w') = false ∧
  alerts (browser w') = alerts (browser w).
Proof.
  intros w w'.
  assert (overlay_getUrl (browser w) = true) as H by reflexivity.
  destruct (X17_part000_load w "flight1" scenario_features
              {| timestamps := []; bounds := scenario_bounds |}
              {| coordinates := (-1205 # 10, 385 # 10)%Q; timestamp_iso := 0;
                 seeding_type := None |}
              (tail scenario_points) eq_refl H)
    as (_ & Ha & Hr & _ & _ & Hc & _).
  exact (conj H (conj Hr (conj Hc Ha))).
Defined.
End Part000Load.

(** ** Loads that overlap, and what a load draws *)

Section LoadOverlap.
Import Script.


Lemma script_updateFrame_flightId i :
  preserves (λ w, currentFlightId (animationState w)) (updateFrame i).
Proof. unfold updateFrame. preserve. Qed.


Lemma script_loadFlight_tail_flightId :
  preserves (λ w, currentFlightId (animationState w))
    (try_catch
       (drawFlightPath;; setupAnimation;; modify (with_dom (set_controls_hidden false)))
       loadFlight_catch).
Proof.
  apply preserves_try_catch.
  - unfold drawFlightPath, setupAnimation. preserve. apply script_updateFrame_flightId.
  - intros e. unfold loadFlight_catch, console_error, alert. preserve.
Qed.

(** Entering a load from a state that an earlier, unfinished load
    entered is entering it from the state before: the second reset finds
    the map reset, and the flight id is overwritten. *)
Lemma script_loadFlight_enter_twice idA idB w :
  exec (loadFlight_enter idB) (exec (loadFlight_enter idA) w)
  = exec (loadFlight_enter idB) w.
Proof.
  unfold exec at 1 2 3. rewrite !script_loadFlight_enter_eq. simpl.
  assert (stopped (with_animationState (set_currentFlightId (Some idA)) (exec resetMap w)))
    as Hs by apply (script_resetMap_stopped w).
  unfold exec at 1. rewrite (script_resetMap_on_stopped _ Hs). reflexivity.
Qed.





(** X18.  A load that is overtaken.  [loadFlight] never checks, when it
    resumes after a [fetch], that its flight is still the selected one.
    If a flight [idA] is selected and then a flight [idB] before any
    response has arrived, the next flight data and radar metadata to
    arrive, whichever request they answer, are installed exactly as an
    undisturbed load of [idB] would install them: the result is the
    state of [loadFlight idB] with these data, its flight id, from
    which the image addresses are built, is [idB], and its radar
    metadata are the arrived ones, sorted. *)
Theorem X18_overtaken_load (w : State) (idA idB : string)
    (features : list Feature) (meta : RadarMeta) :
  idA ≠ "" → idB ≠ "" →
  let w' := run [FlightSelect idA; FlightSelect idB;
                 FlightSettled (Resolved features); RadarSettled (Resolved meta)] w in
  w' = exec (loadFlight idB (Resolved features) (Resolved meta)) w ∧
  currentFlightId (animationState w') = Some idB ∧
  radarMeta (animationState w') = Some (sort_frames meta).
Proof.
  intros HA HB w'.
  assert (w' = exec (loadFlight idB (Resolved features) (Resolved meta)) w) as Hw'.
  { unfold w', run. simpl foldl.
    unfold on_flight_select.
    rewrite !bool_decide_true by done.
    rewrite script_loadFlight_enter_twice.
    unfold exec at 4. rewrite script_loadFlight_resolved.
    unfold exec at 3. rewrite script_loadFlight_enter_eq. reflexivity. }
  split; [done|]. rewrite Hw'. split.
  - unfold exec at 1. rewrite script_loadFlight_resolved.
    pose proof (script_loadFlight_tail_flightId
                  (with_animationState (set_radarMeta (Some (sort_frames meta)))
                     (set_flightData
                        (Some {| path := find_LineString features;
                                 points := filter_Point features |})
                        (with_animationState (set_currentFlightId (Some idB))
                           (exec resetMap w))))) as H.
    unfold exec at 1 in H. by rewrite H.
  - apply script_loadFlight_radarMeta.
Qed.

Lemma X18_overtaken_load_witness :
  let w' := run [FlightSelect "flight1"; FlightSelect "flight2";
                 FlightSettled (Resolved scenario_features);
                 RadarSettled (Resolved scenario_meta)] scenario_world in
  w' = exec (loadFlight "flight2" (Resolved scenario_features) (Resolved scenario_meta))
         scenario_world ∧
  currentFlightId (animationState w') = Some "flight2" ∧
  radarMeta (animationState w') = Some (sort_frames scenario_meta).
Proof.
  apply (X18_overtaken_load scenario_world "flight1" "flight2"
           scenario_features scenario_meta); done.
Defined.

End LoadOverlap.
